(** * QuizApp: the session clock, the scoring engine and open-answer grading

    A shallow embedding of the Express handlers of the quiz server.  The
    repository holds two variants of the server: the extended one (caller
    supplied end time, open-ended answers, manual grading) and [server.js]
    (one-hour sessions, status probe).  The extended variant is embedded at
    top level; what [server.js] does differently lives in [Module ServerJs].

    Modelling conventions:
    - the four JSON files under [data/] are one [Store] record that every
      handler takes and returns (read-modify-write of the whole file); a
      missing collection is the empty list, as the handlers' [|| []] and
      [if (!x.users) x.users = []] make it;
    - JavaScript values are [jsval]; a JS object read from JSON and used
      as a dictionary is a [gmap string jsval] of its own properties.  A
      read [o[k]] with a computed name is [js_get]: it falls back to the
      members that every such object inherits from [Object.prototype], and
      is [None] ([undefined]) when there is neither.  An assignment
      [o[k] = v] is [js_set], and what [JSON.stringify] keeps of an object
      that a handler built is [stringify_obj];
    - a response body is the value that the handler hands to [res.json];
    - numbers are integers ([Z]); [toLowerCase] is a parameter of the
      embedding, see [Lowering];
    - a request field of string type that is absent is the empty string: both
      are falsy for the handlers' [!x] checks;
    - [Date.now()], [new Date().toISOString()] and [uuidv4()] are inputs of
      the handlers that call them. *)

From Stdlib Require Import ZArith Ascii String List Lia.
From stdpp Require Import base option list strings pretty gmap fin_maps.

Open Scope string_scope.
Open Scope Z_scope.
Open Scope list_scope.

(** ** The values that the handlers meet *)

(** The JSON values of the request bodies and of the data files, and the
    two kinds of value that a read of an inherited property yields:
    [JFunction name] is the built-in function that [Object.prototype]
    holds under [name], and [JProto] is [Object.prototype] itself, which
    [o.__proto__] returns.  Objects nested inside the values are not
    modelled. *)
#[warnings="-register-all"]
Inductive jsval : Type :=
  | JNull
  | JBool (b : bool)
  | JNum (n : Z)
  | JStr (s : string)
  | JArr (l : list jsval)
  | JFunction (name : string)
  | JProto.

(** The own properties of an object; [None] is a property that the object
    does not have itself. *)
Abbreviation jsobj := (gmap string jsval).

(** ToBoolean, as [!x], [x && y], [x || y] and [x ? a : b] apply it. *)
Definition truthy (v : option jsval) : bool :=
  match v with
  | None => false
  | Some JNull => false
  | Some (JBool b) => b
  | Some (JNum n) => negb (n =? 0)%Z
  | Some (JStr s) => negb (bool_decide (s = ""))
  | Some (JArr _) => true
  | Some (JFunction _) => true
  | Some JProto => true
  end.

(** [x === "literal"] for a property read [x]. *)
Definition strict_eq_str (v : option jsval) (s : string) : bool :=
  match v with
  | Some (JStr s') => bool_decide (s' = s)
  | _ => false
  end.

(** [x === true] and [x === false]. *)
Definition strict_eq_bool (v : option jsval) (b : bool) : bool :=
  match v with
  | Some (JBool b') => bool_decide (b' = b)
  | _ => false
  end.

(** ToString, as a computed property name [o[x]] applies it (numbers in
    the range that is written without an exponent). *)
Fixpoint js_to_string (v : jsval) : string :=
  match v with
  | JNull => "null"
  | JBool true => "true"
  | JBool false => "false"
  | JNum n => pretty n
  | JStr s => s
  | JArr l =>
      (fix join (l : list jsval) : string :=
         match l with
         | [] => ""
         | x :: r =>
             let e := match x with JNull => "" | _ => js_to_string x end in
             match r with [] => e | _ => e +:+ "," +:+ join r end
         end) l
  | JFunction name =>
      "function " +:+ (if bool_decide (name = "constructor") then "Object" else name)
        +:+ "() { [native code] }"
  | JProto => "[object Object]"
  end.

Definition prop_key (v : option jsval) : string :=
  match v with
  | None => "undefined"
  | Some x => js_to_string x
  end.

(** The names under which [Object.prototype] has a property; a plain
    object inherits all of them. *)
Definition object_prototype_members : list string :=
  ["constructor"; "__defineGetter__"; "__defineSetter__"; "hasOwnProperty";
   "__lookupGetter__"; "__lookupSetter__"; "isPrototypeOf"; "propertyIsEnumerable";
   "toString"; "valueOf"; "__proto__"; "toLocaleString"].

(** The read [o[k]] on a plain object: the own property if there is one,
    else the member of [Object.prototype] of that name, else [undefined]. *)
Definition js_get (o : jsobj) (k : string) : option jsval :=
  match o !! k with
  | Some v => Some v
  | None =>
      if bool_decide (k = "__proto__") then Some JProto
      else if bool_decide (k ∈ object_prototype_members) then Some (JFunction k)
      else None
  end.

(** The assignment [o[k] = v] on a plain object.  It writes an own
    property, except under the name ["__proto__"] when the object has no
    own property of that name: then the inherited setter runs, which
    creates no property.  (For a [v] that is an object the setter replaces
    the prototype of [o]; no handler reads [o] again before it is
    serialised, and [JSON.stringify] looks at own properties only.) *)
Definition js_set (o : jsobj) (k : string) (v : jsval) : jsobj :=
  if bool_decide (k = "__proto__" ∧ o !! k = None) then o
  else <[k := v]> o.

Definition is_function (v : jsval) : bool :=
  match v with
  | JFunction _ => true
  | _ => false
  end.

(** What [JSON.stringify] writes of an object that a handler has filled,
    and [JSON.parse] reads back: a property whose value is a function is
    left out.  ([Object.prototype] as a value would be written as [{}], an
    object that no handler can tell from it.) *)
Definition stringify_obj (o : jsobj) : jsobj :=
  filter (λ kv : string * jsval, is_function kv.2 = false) o.

(** ** Lower-casing *)

(** [String.prototype.toLowerCase] is a built-in of the JavaScript engine
    and lower-cases the letters of every alphabet.  The handlers are
    embedded over any function [toLowerCase] on strings of which one fact
    is known, the only one that the properties below rest on: the empty
    string, and no other, is lower-cased to the empty string. *)
Class Lowering : Type := {
  toLowerCase : string → string;
  toLowerCase_nonempty : ∀ s, toLowerCase s = "" ↔ s = ""
}.

(** What the built-in does to ASCII text.  The concrete quizzes at the end
    of the file, whose names and answers are ASCII text, run with it. *)
Definition lower_ascii (c : ascii) : ascii :=
  let n := N_of_ascii c in
  if ((65 <=? n) && (n <=? 90))%N then ascii_of_N (n + 32) else c.

Fixpoint ascii_toLowerCase (s : string) : string :=
  match s with
  | EmptyString => EmptyString
  | String c r => String (lower_ascii c) (ascii_toLowerCase r)
  end.

Definition ascii_lowering : Lowering.
Proof.
  refine {| toLowerCase := ascii_toLowerCase |}.
  intros []; simpl; split; intros; congruence.
Defined.

(** The method call [x.toLowerCase()]: only strings have the method, on
    anything else the call throws a TypeError ([None]). *)
Definition call_toLowerCase {lowering : Lowering} (v : option jsval) : option string :=
  match v with
  | Some (JStr s) => Some (toLowerCase s)
  | _ => None
  end.

(** ** Records of the store *)

Inductive Role : Type := Teacher | Student.

#[global] Instance Role_eq_dec : EqDecision Role.
Proof. solve_decision. Defined.

Record TeacherRec : Type := mkTeacher {
  t_firstName : string;
  t_lastName : string
}.

Record User : Type := mkUser {
  u_id : string;
  u_firstName : string;
  u_lastName : string;
  u_role : Role
}.

Record Session : Type := mkSession {
  ses_startTime : Z;
  ses_endTime : Z
}.

(** [openEndedAnswers] and [openAnswerGrades] are absent on the submissions
    that [server.js] writes; the extended handlers test for them. *)
Record Submission : Type := mkSubmission {
  sub_token : string;
  sub_studentName : string;
  sub_answers : jsobj;
  sub_openEndedAnswers : option jsobj;
  sub_openAnswerGrades : option jsobj;
  sub_score : Z;
  sub_totalMCQs : Z;
  sub_submittedAt : string
}.

Record Store : Type := mkStore {
  teachers : list TeacherRec;
  users : list User;
  sessions : list Session;
  questions : list jsobj;
  submissions : list Submission
}.

Definition set_users (st : Store) (us : list User) : Store :=
  mkStore (teachers st) us (sessions st) (questions st) (submissions st).

Definition set_sessions (st : Store) (ss : list Session) : Store :=
  mkStore (teachers st) (users st) ss (questions st) (submissions st).

Definition set_submissions (st : Store) (subs : list Submission) : Store :=
  mkStore (teachers st) (users st) (sessions st) (questions st) subs.

(** ** Responses *)

Inductive Response (A : Type) : Type :=
  | Json (body : A)
  | Fail (status : Z) (error : string).

Arguments Json {A} body.
Arguments Fail {A} status error.

(** The spec's names for the failures, as the handlers send them. *)
Definition NotStarted {A} : Response A := Fail 403 "Quiz has not started yet".
Definition Ended {A} : Response A := Fail 403 "Quiz ended".
Definition DuplicateSubmission {A} : Response A :=
  Fail 400 "You have already submitted your answers.".
Definition InvalidStudentToken {A} : Response A := Fail 403 "Invalid student token.".
Definition InvalidTeacherToken {A} : Response A := Fail 403 "Invalid teacher token.".
Definition SubmissionNotFound {A} : Response A :=
  Fail 404 "No submission found for this student.".
Definition QuestionNotFound {A} : Response A := Fail 404 "Question not found.".

(** ** GET /questions *)

(** The checks that open the handler: no session, then ended, then not
    started.  The latest session is the last element of the list. *)
Definition gate (now : Z) (ss : list Session) : Response Z :=
  match last ss with
  | None => NotStarted
  | Some latestSession =>
      if (ses_endTime latestSession <? now)%Z then Ended
      else if (now <? ses_startTime latestSession)%Z then NotStarted
      else Json (ses_endTime latestSession - now)
  end.

(** The spec's reading of the gate, in the order of its sentence:
    NotStarted if no session exists or now < startTime, Ended if
    now > endTime, success otherwise. *)
Definition gate_spec (now : Z) (ss : list Session) : Response Z :=
  match last ss with
  | None => NotStarted
  | Some latestSession =>
      if (now <? ses_startTime latestSession)%Z then NotStarted
      else if (ses_endTime latestSession <? now)%Z then Ended
      else Json (ses_endTime latestSession - now)
  end.

Record QuestionsBody : Type := mkQuestionsBody {
  remainingTimeMs : Z;
  questionsToSend : list jsobj
}.

(** [({ correctAnswer, ...rest }) => rest] *)
Definition strip_answer (q : jsobj) : jsobj := delete "correctAnswer" q.

Definition get_questions (now : Z) (st : Store) : Response QuestionsBody :=
  match gate now (sessions st) with
  | Fail status e => Fail status e
  | Json remaining => Json (mkQuestionsBody remaining (strip_answer <$> questions st))
  end.

Section handlers.
Context {lowering : Lowering}.

(** ** POST /signin *)

Record SigninBody : Type := mkSigninBody {
  token : string;
  role : Role
}.

(** The predicate of both [teachers.some] and [users.find]: the two names
    agree after [toLowerCase]. *)
Definition same_name (firstName lastName f l : string) : Prop :=
  toLowerCase f = toLowerCase firstName ∧ toLowerCase l = toLowerCase lastName.

#[global] Instance same_name_dec firstName lastName f l :
  Decision (same_name firstName lastName f l).
Proof. unfold same_name. apply _. Defined.

(** [uuid] is what [uuidv4()] returns if the handler calls it. *)
Definition signin (uuid firstName lastName : string) (st : Store)
  : Store * Response SigninBody :=
  if bool_decide (firstName = "" ∨ lastName = "") then
    (st, Fail 400 "First name and last name are required")
  else
    let isTeacher :=
      bool_decide (Exists (λ t, same_name firstName lastName (t_firstName t) (t_lastName t))
                          (teachers st)) in
    match list_find (λ u, same_name firstName lastName (u_firstName u) (u_lastName u))
                    (users st) with
    | Some (_, user) => (st, Json (mkSigninBody (u_id user) (u_role user)))
    | None =>
        let user := mkUser uuid firstName lastName (if isTeacher then Teacher else Student) in
        (set_users st (users st ++ [user]), Json (mkSigninBody (u_id user) (u_role user)))
    end.

(** [usersData.users.find((u) => u.id === token && u.role === r)] *)
Definition find_user (token : string) (r : Role) (us : list User) : option (nat * User) :=
  list_find (λ u, u_id u = token ∧ u_role u = r) us.

(** ** POST /session/start *)

Record SessionBody : Type := mkSessionBody {
  startTime : Z;
  endTime : Z
}.

(** [endTime] is [None] when the request field is falsy and otherwise the
    integer that [parseInt] reads from it; a truthy field from which
    [parseInt] reads no number is not modelled.  The handler takes the
    users' file to be there, as sign-in leaves it. *)
Definition session_start (now : Z) (token : string) (endTime : option Z) (st : Store)
  : Store * Response SessionBody :=
  if bool_decide (token = "") then (st, Fail 400 "Token required")
  else
    match endTime with
    | None => (st, Fail 400 "End time required")
    | Some e =>
        match find_user token Teacher (users st) with
        | None => (st, Fail 403 "Only teacher can start quiz")
        | Some _ =>
            (set_sessions st (sessions st ++ [mkSession now e]), Json (mkSessionBody now e))
        end
    end.

(** ** POST /submit *)

(** The three locals that the [forEach] over the questions updates. *)
Record Grading : Type := mkGrading {
  g_score : Z;
  g_totalMCQs : Z;
  g_openEndedAnswers : jsobj
}.

(** [x || d] *)
Definition or_default (x : option jsval) (d : jsval) : jsval :=
  match x with
  | Some v => if truthy x then v else d
  | None => d
  end.

(** The body of the [forEach] callback; [None] is the TypeError of a
    [toLowerCase] call on something that is not a string. *)
Definition grade_question (answers : jsobj) (acc : Grading) (q : jsobj) : option Grading :=
  if strict_eq_str (q !! "type") "multiple-choice" then
    let acc := mkGrading (g_score acc) (g_totalMCQs acc + 1) (g_openEndedAnswers acc) in
    if truthy (js_get answers (prop_key (q !! "id"))) then
      a ← call_toLowerCase (js_get answers (prop_key (q !! "id")));
      c ← call_toLowerCase (q !! "correctAnswer");
      if bool_decide (a = c)
      then Some (mkGrading (g_score acc + 1) (g_totalMCQs acc) (g_openEndedAnswers acc))
      else Some acc
    else Some acc
  else if strict_eq_str (q !! "type") "open-ended" then
    Some (mkGrading (g_score acc) (g_totalMCQs acc)
            (js_set (g_openEndedAnswers acc) (prop_key (q !! "id"))
               (or_default (js_get answers (prop_key (q !! "id"))) (JStr "No answer"))))
  else Some acc.

Fixpoint grade_loop (answers : jsobj) (acc : Grading) (qs : list jsobj) : option Grading :=
  match qs with
  | [] => Some acc
  | q :: rest =>
      match grade_question answers acc q with
      | Some acc' => grade_loop answers acc' rest
      | None => None
      end
  end.

Definition grade_submission (qs : list jsobj) (answers : jsobj) : option Grading :=
  grade_loop answers (mkGrading 0 0 ∅) qs.

Record SubmitBody : Type := mkSubmitBody {
  sb_score : Z;
  sb_totalMCQs : Z
}.

(** [answers] is [None] when the request field is falsy, and the JSON object
    otherwise (a truthy field that is not an object is not modelled).  An
    exception that leaves the handler is answered by Express with status 500
    and nothing is written.  [openEndedAnswers] reaches the file through
    [JSON.stringify]. *)
Definition submit (submittedAt token : string) (answers : option jsobj) (st : Store)
  : Store * Response SubmitBody :=
  match answers with
  | Some answers =>
      if bool_decide (token = "") then (st, Fail 400 "Token and answers required")
      else
        match find_user token Student (users st) with
        | None => (st, InvalidStudentToken)
        | Some (_, user) =>
            match list_find (λ sub, sub_token sub = token) (submissions st) with
            | Some _ => (st, DuplicateSubmission)
            | None =>
                match grade_submission (questions st) answers with
                | None => (st, Fail 500 "Internal Server Error")
                | Some g =>
                    (set_submissions st
                       (submissions st ++
                          [mkSubmission token
                             (u_firstName user +:+ " " +:+ u_lastName user)
                             answers
                             (Some (stringify_obj (g_openEndedAnswers g)))
                             (Some ∅)
                             (g_score g)
                             (g_totalMCQs g)
                             submittedAt]),
                     Json (mkSubmitBody (g_score g) (g_totalMCQs g)))
                end
            end
        end
  | None => (st, Fail 400 "Token and answers required")
  end.

(** ** GET /teacher/results *)

Record ResultRow : Type := mkResultRow {
  studentName : string;
  correctCount : Z;
  totalQuestions : Z
}.

Definition teacher_results (token : string) (st : Store) : Response (list ResultRow) :=
  if bool_decide (token = "") then Fail 400 "Teacher token required"
  else
    match find_user token Teacher (users st) with
    | None => InvalidTeacherToken
    | Some _ =>
        Json ((λ sub, mkResultRow (sub_studentName sub) (sub_score sub) (sub_totalMCQs sub))
                <$> submissions st)
    end.

(** ** POST /teacher/mark-open-question *)

Record MarkBody : Type := mkMarkBody {
  updatedScore : Z;
  previousGrade : option jsval;
  newGrade : jsval;
  scoreChange : Z
}.

(** The [if]/[else if] chain that computes [scoreChange]. *)
Definition score_change (currentGrade : option jsval) (newGrade : jsval) : Z :=
  match currentGrade with
  | None => if truthy (Some newGrade) then 1 else 0
  | Some _ =>
      if strict_eq_bool currentGrade true && strict_eq_bool (Some newGrade) false then -1
      else if strict_eq_bool currentGrade false && strict_eq_bool (Some newGrade) true then 1
      else 0
  end.

(** The mutation of the submission that [find] returned: the grade is
    written, the score is changed and then floored at 0. *)
Definition regrade (questionText : string) (newGrade : jsval) (sub : Submission)
  : Submission :=
  let grades := default ∅ (sub_openAnswerGrades sub) in
  let score := sub_score sub + score_change (js_get grades questionText) newGrade in
  mkSubmission (sub_token sub) (sub_studentName sub) (sub_answers sub)
    (sub_openEndedAnswers sub)
    (Some (js_set grades questionText newGrade))
    (if (score <? 0)%Z then 0 else score)
    (sub_totalMCQs sub) (sub_submittedAt sub).

(** [isCorrect] is [None] when the request has no such field. *)
Definition mark_open_question (token studentName questionText : string)
    (isCorrect : option jsval) (st : Store) : Store * Response MarkBody :=
  match isCorrect with
  | Some newGrade =>
      if bool_decide (token = "" ∨ studentName = "" ∨ questionText = "") then
        (st, Fail 400 "Token, student name, question text, and correctness status are required")
      else
        match find_user token Teacher (users st) with
        | None => (st, InvalidTeacherToken)
        | Some _ =>
            match list_find (λ sub, sub_studentName sub = studentName) (submissions st) with
            | None => (st, SubmissionNotFound)
            | Some (i, submission) =>
                let openQuestions :=
                  filter (λ q, strict_eq_str (q !! "type") "open-ended" = true) (questions st) in
                match list_find (λ q : jsobj, strict_eq_str (q !! "text") questionText = true)
                                openQuestions with
                | None => (st, QuestionNotFound)
                | Some _ =>
                    let currentGrade :=
                      js_get (default ∅ (sub_openAnswerGrades submission)) questionText in
                    let submission' := regrade questionText newGrade submission in
                    (set_submissions st (<[i := submission']> (submissions st)),
                     Json (mkMarkBody (sub_score submission') currentGrade newGrade
                             (score_change currentGrade newGrade)))
                end
            end
        end
  | None =>
      (st, Fail 400 "Token, student name, question text, and correctness status are required")
  end.

End handlers.

(** ** What [server.js] does differently *)

Module ServerJs.
Section variant.
Context {lowering : Lowering}.

(** Sessions last one hour from the moment they are started. *)
Definition session_start (now : Z) (token : string) (st : Store)
  : Store * Response SessionBody :=
  if bool_decide (token = "") then (st, Fail 400 "Token required")
  else
    match find_user token Teacher (users st) with
    | None => (st, Fail 403 "Only teacher can start quiz")
    | Some _ =>
        let endTime := now + 60 * 60 * 1000 in
        (set_sessions st (sessions st ++ [mkSession now endTime]),
         Json (mkSessionBody now endTime))
    end.

Record StatusBody : Type := mkStatusBody {
  testStarted : bool;
  status_remainingTimeMs : Z
}.

(** GET /session/status *)
Definition session_status (now : Z) (st : Store) : StatusBody :=
  match last (sessions st) with
  | None => mkStatusBody false 0
  | Some latestSession =>
      if (ses_startTime latestSession <=? now)%Z && (now <=? ses_endTime latestSession)%Z
      then mkStatusBody true (ses_endTime latestSession - now)
      else mkStatusBody false 0
  end.

(** The [forEach] of this variant looks at multiple-choice questions only. *)
Definition grade_question (answers : jsobj) (acc : Z * Z) (q : jsobj) : option (Z * Z) :=
  let '(score, totalMCQs) := acc in
  if strict_eq_str (q !! "type") "multiple-choice" then
    if truthy (js_get answers (prop_key (q !! "id"))) then
      a ← call_toLowerCase (js_get answers (prop_key (q !! "id")));
      c ← call_toLowerCase (q !! "correctAnswer");
      if bool_decide (a = c) then Some (score + 1, totalMCQs + 1)
      else Some (score, totalMCQs + 1)
    else Some (score, totalMCQs + 1)
  else Some acc.

Fixpoint grade_loop (answers : jsobj) (acc : Z * Z) (qs : list jsobj) : option (Z * Z) :=
  match qs with
  | [] => Some acc
  | q :: rest =>
      match grade_question answers acc q with
      | Some acc' => grade_loop answers acc' rest
      | None => None
      end
  end.

Definition grade_submission (qs : list jsobj) (answers : jsobj) : option (Z * Z) :=
  grade_loop answers (0, 0) qs.

Definition submit (submittedAt token : string) (answers : option jsobj) (st : Store)
  : Store * Response SubmitBody :=
  match answers with
  | Some answers =>
      if bool_decide (token = "") then (st, Fail 400 "Token and answers required")
      else
        match find_user token Student (users st) with
        | None => (st, InvalidStudentToken)
        | Some (_, user) =>
            match list_find (λ sub, sub_token sub = token) (submissions st) with
            | Some _ => (st, DuplicateSubmission)
            | None =>
                match grade_submission (questions st) answers with
                | None => (st, Fail 500 "Internal Server Error")
                | Some (score, totalMCQs) =>
                    (set_submissions st
                       (submissions st ++
                          [mkSubmission token
                             (u_firstName user +:+ " " +:+ u_lastName user)
                             answers None None score totalMCQs submittedAt]),
                     Json (mkSubmitBody score totalMCQs))
                end
            end
        end
  | None => (st, Fail 400 "Token and answers required")
  end.

(** GET /submission/check: no look at the users, only at the submissions. *)
Definition submission_check (token : string) (st : Store) : Response bool :=
  if bool_decide (token = "") then Fail 400 "Token required"
  else Json (bool_decide (is_Some (list_find (λ sub, sub_token sub = token) (submissions st)))).

Record OpenRow : Type := mkOpenRow {
  or_studentName : string;
  or_answers : jsobj
}.

(** The [forEach] over the open questions that fills [answers], keyed by
    the text of the question: [sub.answers[q.id] || "No answer"]. *)
Definition open_answers (openQuestions : list jsobj) (sub : Submission) : jsobj :=
  foldl (λ answers q,
           js_set answers (prop_key (q !! "text"))
             (or_default (js_get (sub_answers sub) (prop_key (q !! "id"))) (JStr "No answer")))
        ∅ openQuestions.

(** GET /teacher/open-questions *)
Definition teacher_open_questions (token : string) (st : Store) : Response (list OpenRow) :=
  if bool_decide (token = "") then Fail 400 "Teacher token required"
  else
    match find_user token Teacher (users st) with
    | None => InvalidTeacherToken
    | Some _ =>
        let openQuestions :=
          filter (λ q, strict_eq_str (q !! "type") "open-ended" = true) (questions st) in
        Json ((λ sub, mkOpenRow (sub_studentName sub) (open_answers openQuestions sub))
                <$> submissions st)
    end.

(** The requests that write to the store in this variant. *)
Inductive Request : Type :=
  | Signin (uuid firstName lastName : string)
  | SessionStart (now : Z) (token : string)
  | Submit (submittedAt token : string) (answers : option jsobj).

Definition handle (st : Store) (r : Request) : Store :=
  match r with
  | Signin uuid firstName lastName => (signin uuid firstName lastName st).1
  | SessionStart now token => (session_start now token st).1
  | Submit submittedAt token answers => (submit submittedAt token answers st).1
  end.

Definition run (st : Store) (rs : list Request) : Store := foldl handle st rs.

End variant.
End ServerJs.

Section model.
Context {lowering : Lowering}.

(** ** Requests that write to the store, and the states they reach *)

Inductive Request : Type :=
  | Signin (uuid firstName lastName : string)
  | SessionStart (now : Z) (token : string) (endTime : option Z)
  | Submit (submittedAt token : string) (answers : option jsobj)
  | MarkOpenQuestion (token studentName questionText : string) (isCorrect : option jsval).

Definition handle (st : Store) (r : Request) : Store :=
  match r with
  | Signin uuid firstName lastName => (signin uuid firstName lastName st).1
  | SessionStart now token endTime => (session_start now token endTime st).1
  | Submit submittedAt token answers => (submit submittedAt token answers st).1
  | MarkOpenQuestion token studentName questionText isCorrect =>
      (mark_open_question token studentName questionText isCorrect st).1
  end.

Definition run (st : Store) (rs : list Request) : Store := foldl handle st rs.

(** The data directory before anybody signs in: the teacher roster and the
    questions are provisioned, the other collections are empty. *)
Definition initial (ts : list TeacherRec) (qs : list jsobj) : Store :=
  mkStore ts [] [] qs [].

(** [uuidv4()] never returns the empty string nor an id that is in use. *)
Definition uuid_fresh (st : Store) (r : Request) : Prop :=
  match r with
  | Signin uuid _ _ => uuid ≠ "" ∧ Forall (λ u, u_id u ≠ uuid) (users st)
  | _ => True
  end.

Inductive reachable : Store → Prop :=
  | reachable_initial ts qs : reachable (initial ts qs)
  | reachable_handle st r :
      reachable st → uuid_fresh st r → reachable (handle st r).

(** Every [uuidv4()] along a run of requests is fresh. *)
Fixpoint all_fresh (st : Store) (rs : list Request) : Prop :=
  match rs with
  | [] => True
  | r :: rs => uuid_fresh st r ∧ all_fresh (handle st r) rs
  end.

(** What the existence check of POST /submit maintains: no token has two
    submissions, and every submission carries the non-empty token of a
    student who is in the store. *)
Definition submissions_ok (st : Store) : Prop :=
  NoDup (sub_token <$> submissions st) ∧
  Forall (λ sub, sub_token sub ≠ "" ∧
                 is_Some (find_user (sub_token sub) Student (users st)))
         (submissions st).

(** Requests whose verdict, if there is one, is a boolean, for a question
    text that is not the name of a member of [Object.prototype]. *)
Definition boolean_verdict (r : Request) : Prop :=
  match r with
  | MarkOpenQuestion _ _ questionText (Some v) =>
      (∃ b, v = JBool b) ∧ questionText ∉ object_prototype_members
  | _ => True
  end.

(** The number of answers of a submission that are graded [true]. *)
Definition true_grades (grades : jsobj) : Z :=
  Z.of_nat (size (filter (λ kv : string * jsval, strict_eq_bool (Some kv.2) true = true)
                         grades)).

(** Every grade is a boolean and each [true] is counted in the score. *)
Definition graded_by_booleans (sub : Submission) : Prop :=
  map_Forall (λ _ v, ∃ b, v = JBool b) (default ∅ (sub_openAnswerGrades sub)) ∧
  true_grades (default ∅ (sub_openAnswerGrades sub)) ≤ sub_score sub.

(** ** Definitions that follow the spec's words *)

(** The grade transition table of the spec: the score change for a previous
    grade ([None] is ungraded) and a new verdict. *)
Definition grade_transition (previous : option bool) (new : bool) : Z :=
  match previous, new with
  | None, true => 1
  | None, false => 0
  | Some true, false => -1
  | Some false, true => 1
  | Some true, true => 0
  | Some false, false => 0
  end.

(** An open-ended question with the given text. *)
Definition is_open_question (questionText : string) (q : jsobj) : Prop :=
  strict_eq_str (q !! "type") "open-ended" = true ∧
  strict_eq_str (q !! "text") questionText = true.

#[global] Instance is_open_question_dec questionText q :
  Decision (is_open_question questionText q).
Proof. unfold is_open_question. apply _. Defined.

(** The vocabulary of the grading rule. *)
Definition is_mcq (q : jsobj) : Prop := strict_eq_str (q !! "type") "multiple-choice" = true.

Definition is_open (q : jsobj) : Prop := strict_eq_str (q !! "type") "open-ended" = true.

(** A question whose id is not the name of a member of [Object.prototype]:
    a read of [answers[q.id]] then finds a submitted answer or nothing. *)
Definition plain_id (q : jsobj) : Prop :=
  prop_key (q !! "id") ∉ object_prototype_members.


(** The submitted answer for the id of a question, if any. *)
Definition answer_for (answers q : jsobj) : option jsval := answers !! prop_key (q !! "id").

(** The grading rule as the spec words it: the answer for the question's id
    exists and equals correctAnswer when both are compared case-insensitively;
    the submitted answer is stored, or "No answer" when there is none. *)
Definition claimed_correct (answers q : jsobj) : Prop :=
  match answer_for answers q, q !! "correctAnswer" with
  | Some (JStr a), Some (JStr c) => toLowerCase a = toLowerCase c
  | _, _ => False
  end.

Definition claimed_stored (answers : jsobj) (k : string) : jsval :=
  match answers !! k with
  | Some a => a
  | None => JStr "No answer"
  end.

(** The grading rule with the amendment: the answer must also be non-empty,
    and an answer that is empty (falsy) is stored as "No answer". *)
Definition answered_correctly (answers q : jsobj) : Prop :=
  match answer_for answers q, q !! "correctAnswer" with
  | Some (JStr a), Some (JStr c) => a ≠ "" ∧ toLowerCase a = toLowerCase c
  | _, _ => False
  end.

#[global] Instance answered_correctly_dec answers q : Decision (answered_correctly answers q).
Proof. unfold answered_correctly. repeat case_match; apply _. Defined.

Definition stored_answer (answers : jsobj) (k : string) : jsval :=
  match answers !! k with
  | Some a => if truthy (Some a) then a else JStr "No answer"
  | None => JStr "No answer"
  end.

(** One step of the amended rule, for one question. *)
Definition grade_question_spec (answers : jsobj) (acc : Grading) (q : jsobj) : Grading :=
  if decide (is_mcq q) then
    mkGrading (g_score acc + (if decide (answered_correctly answers q) then 1 else 0))
              (g_totalMCQs acc + 1)
              (g_openEndedAnswers acc)
  else if decide (is_open q) then
    mkGrading (g_score acc) (g_totalMCQs acc)
              (<[prop_key (q !! "id") := stored_answer answers (prop_key (q !! "id"))]>
                 (g_openEndedAnswers acc))
  else acc.

(** The inputs on which no [toLowerCase] call throws: a non-empty (truthy)
    answer to a multiple-choice question is a string, and so is the
    correctAnswer of that question. *)
Definition well_typed (answers q : jsobj) : Prop :=
  is_mcq q → truthy (answer_for answers q) = true →
  (∃ a, answer_for answers q = Some (JStr a)) ∧ (∃ c, q !! "correctAnswer" = Some (JStr c)).

(** ** The handlers outside the claims *)

Definition set_teachers (st : Store) (ts : list TeacherRec) : Store :=
  mkStore ts (users st) (sessions st) (questions st) (submissions st).

(** *** GET /results (the same in both variants) *)

(** One element of [detailedResults]; [id] and [text] are copied as they
    are ([None] when the question has no such property), the other four
    fall back to [null] or to "multiple-choice". *)
Record ResultDetail : Type := mkResultDetail {
  rd_id : option jsval;
  rd_text : option jsval;
  rd_choices : jsval;
  rd_correctAnswer : jsval;
  rd_studentAnswer : jsval;
  rd_type : jsval
}.

Definition detailed_result (answers q : jsobj) : ResultDetail :=
  mkResultDetail (q !! "id") (q !! "text")
    (or_default (q !! "choices") JNull)
    (or_default (q !! "correctAnswer") JNull)
    (or_default (js_get answers (prop_key (q !! "id"))) JNull)
    (or_default (q !! "type") (JStr "multiple-choice")).

Record ResultsBody : Type := mkResultsBody {
  rb_studentName : string;
  rb_submittedAt : string;
  rb_score : Z;
  rb_totalMCQs : Z;
  rb_results : list ResultDetail
}.

Definition results (token : string) (st : Store) : Response ResultsBody :=
  if bool_decide (token = "") then Fail 400 "Token required"
  else
    match find_user token Student (users st) with
    | None => InvalidStudentToken
    | Some _ =>
        match list_find (λ sub, sub_token sub = token) (submissions st) with
        | None => SubmissionNotFound
        | Some (_, submission) =>
            Json (mkResultsBody (sub_studentName submission) (sub_submittedAt submission)
                    (sub_score submission) (sub_totalMCQs submission)
                    (detailed_result (sub_answers submission) <$> questions st))
        end
    end.

(** *** GET /teacher/open-questions (the extended variant) *)

(** [sub.openEndedAnswers?.[q.id] || "No answer provided"], stored under the
    text of the question. *)
Definition open_answers (openQuestions : list jsobj) (sub : Submission) : jsobj :=
  foldl (λ answers q,
           js_set answers (prop_key (q !! "text"))
             (or_default (sub_openEndedAnswers sub ≫= (λ m, js_get m (prop_key (q !! "id"))))
                         (JStr "No answer provided")))
        ∅ openQuestions.

(** Nothing inside the [try] block can throw on the values of the model, so
    the [catch] branch with its status 500 does not appear. *)
Definition teacher_open_questions (token : string) (st : Store)
  : Response (list ServerJs.OpenRow) :=
  if bool_decide (token = "") then Fail 400 "Teacher token required"
  else
    match find_user token Teacher (users st) with
    | None => InvalidTeacherToken
    | Some _ =>
        let openQuestions :=
          filter (λ q, strict_eq_str (q !! "type") "open-ended" = true) (questions st) in
        if bool_decide (length openQuestions = 0%nat)
        then Fail 404 "No open-ended questions found."
        else Json ((λ sub, ServerJs.mkOpenRow (sub_studentName sub)
                             (open_answers openQuestions sub))
                     <$> submissions st)
    end.

(** ** Invariants of the reachable stores *)

(** One record per person and one person per token: the ids are not empty
    and pairwise distinct, and no two records have names that agree after
    [toLowerCase]. *)
Definition users_ok (st : Store) : Prop :=
  NoDup (u_id <$> users st) ∧
  Forall (λ u, u_id u ≠ "") (users st) ∧
  ∀ (i j : nat) ui uj,
    users st !! i = Some ui → users st !! j = Some uj →
    same_name (u_firstName ui) (u_lastName ui) (u_firstName uj) (u_lastName uj) →
    i = j.

(** The fields of a submission that no handler writes after the insert. *)
Definition same_submission_data (sub sub' : Submission) : Prop :=
  sub_token sub' = sub_token sub ∧
  sub_studentName sub' = sub_studentName sub ∧
  sub_answers sub' = sub_answers sub ∧
  sub_openEndedAnswers sub' = sub_openEndedAnswers sub ∧
  sub_totalMCQs sub' = sub_totalMCQs sub ∧
  sub_submittedAt sub' = sub_submittedAt sub.

(** Sessions as [server.js] starts them: one hour long. *)
Definition one_hour (s : Session) : Prop := ses_endTime s = ses_startTime s + 3600000.

End model.

(** * Properties *)

(** Case analysis through the handlers. *)
Ltac handler_cases :=
  unfold signin, session_start, submit, mark_open_question;
  repeat case_match; simpl.

Section properties.
Context {lowering : Lowering}.

(** ** Basic facts about the JavaScript primitives *)

Lemma toLowerCase_empty s : toLowerCase s = "" ↔ s = "".
Proof. apply toLowerCase_nonempty. Qed.

Lemma toLowerCase_nil : toLowerCase "" = "".
Proof. by apply toLowerCase_empty. Qed.

Lemma same_name_casing firstName lastName firstName' lastName' f l :
  toLowerCase firstName' = toLowerCase firstName →
  toLowerCase lastName' = toLowerCase lastName →
  same_name firstName' lastName' f l ↔ same_name firstName lastName f l.
Proof. unfold same_name. intros -> ->. done. Qed.

Lemma same_name_refl firstName lastName : same_name firstName lastName firstName lastName.
Proof. by split. Qed.

(** ** Property reads and writes *)

Lemma js_get_own o k v : o !! k = Some v → js_get o k = Some v.
Proof. unfold js_get. by intros ->. Qed.

(** Outside the names of [Object.prototype] a read sees own properties
    only. *)
Lemma js_get_plain o k : k ∉ object_prototype_members → js_get o k = o !! k.
Proof.
  intros Hk. unfold js_get. destruct (o !! k); [done|].
  rewrite bool_decide_eq_false_2.
  - by rewrite bool_decide_eq_false_2.
  - intros ->. apply Hk. by vm_compute; repeat constructor.
Qed.

Lemma js_get_None o k : js_get o k = None ↔ o !! k = None ∧ k ∉ object_prototype_members.
Proof.
  split.
  - unfold js_get. destruct (o !! k); [done|].
    repeat case_bool_decide; done.
  - intros [H Hk]. by rewrite js_get_plain.
Qed.

(** An inherited member is never a boolean. *)
Lemma js_get_bool o k b : js_get o k = Some (JBool b) ↔ o !! k = Some (JBool b).
Proof.
  split; [|apply js_get_own].
  unfold js_get. destruct (o !! k); [done|].
  repeat case_bool_decide; done.
Qed.

Lemma js_get_insert_eq o k v : js_get (<[k := v]> o) k = Some v.
Proof. apply js_get_own, lookup_insert_eq. Qed.

Lemma js_get_insert_ne o k k' v : k ≠ k' → js_get (<[k := v]> o) k' = js_get o k'.
Proof. intros Hk. unfold js_get. by rewrite lookup_insert_ne. Qed.

Lemma js_set_cases o k v :
  js_set o k v = <[k := v]> o ∨ (k = "__proto__" ∧ o !! k = None ∧ js_set o k v = o).
Proof.
  unfold js_set. case_bool_decide as H; [right; by destruct H|by left].
Qed.

Lemma js_set_plain o k v : k ≠ "__proto__" → js_set o k v = <[k := v]> o.
Proof. intros Hk. unfold js_set. rewrite bool_decide_eq_false_2; [done|]. by intros [? _]. Qed.

Lemma js_set_own o k v : is_Some (o !! k) → js_set o k v = <[k := v]> o.
Proof.
  intros [w Hw]. unfold js_set. rewrite bool_decide_eq_false_2; [done|].
  intros [_ H]. congruence.
Qed.

Lemma js_set_other o k k' v : k' ≠ k → js_set o k v !! k' = o !! k'.
Proof.
  intros Hk. destruct (js_set_cases o k v) as [->|(_ & _ & ->)]; [|done].
  by rewrite lookup_insert_ne.
Qed.

(** What a read finds right after a write under the same name: the value
    written, or, where the write created no property, what it found
    before, which is [Object.prototype]. *)
Lemma js_get_set o k v :
  js_get (js_set o k v) k = Some v ∨
  (k = "__proto__" ∧ js_set o k v = o ∧ js_get o k = Some JProto).
Proof.
  destruct (js_set_cases o k v) as [->|(-> & Hk & ->)].
  - left. apply js_get_own, lookup_insert_eq.
  - right. split_and!; [done..|]. unfold js_get. by rewrite Hk.
Qed.

Lemma js_set_idemp o k v : js_set (js_set o k v) k v = js_set o k v.
Proof.
  destruct (js_set_cases o k v) as [->|(-> & Hk & ->)].
  - rewrite js_set_own by (by rewrite lookup_insert_eq). apply insert_insert_eq.
  - unfold js_set. by rewrite bool_decide_eq_true_2.
Qed.

(** ** What each request leaves alone *)

Lemma handle_teachers st r : teachers (handle st r) = teachers st.
Proof.
  destruct r; simpl; handler_cases; done.
Qed.

Lemma handle_questions st r : questions (handle st r) = questions st.
Proof.
  destruct r; simpl; handler_cases; done.
Qed.

(** Users are only ever appended. *)
Lemma handle_users st r : ∃ new, users (handle st r) = users st ++ new.
Proof.
  destruct r; simpl; handler_cases; eauto using app_nil_r.
Qed.

Lemma run_users st rs : ∃ new, users (run st rs) = users st ++ new.
Proof.
  revert st. induction rs as [|r rs IH]; intros st; simpl.
  - exists []. by rewrite app_nil_r.
  - destruct (IH (handle st r)) as [new2 ->].
    destruct (handle_users st r) as [new1 ->].
    exists (new1 ++ new2). by rewrite app_assoc.
Qed.

(** ** The gate of GET /questions *)

Lemma get_questions_gate now st :
  get_questions now st =
    match gate now (sessions st) with
    | Json remaining => Json (mkQuestionsBody remaining (strip_answer <$> questions st))
    | Fail status e => Fail status e
    end.
Proof. unfold get_questions. by destruct (gate now (sessions st)). Qed.

(** The status probe of [server.js] reports an open test exactly when the
    gate lets a request through, and then with the same remaining time. *)
Lemma session_status_gate now st :
  ServerJs.testStarted (ServerJs.session_status now st) = true
  ↔ gate now (sessions st) = Json (ServerJs.status_remainingTimeMs (ServerJs.session_status now st)).
Proof.
  unfold ServerJs.session_status, gate.
  destruct (last (sessions st)) as [s|]; [|done].
  destruct (Z.leb_spec (ses_startTime s) now), (Z.leb_spec now (ses_endTime s)),
           (Z.ltb_spec (ses_endTime s) now), (Z.ltb_spec now (ses_startTime s));
    simpl; split; intros; try done; try lia.
Qed.

(** C2 (amended): for every list of sessions and every instant now, the gate
    of GET /questions fails with NotStarted when no session exists; otherwise,
    on the latest session, it fails with Ended when now > endTime (also when
    now < startTime holds as well), fails with NotStarted when now <= endTime
    and now < startTime, and succeeds with remainingMs = endTime - now when
    startTime <= now <= endTime.  It agrees with the spec's order of the
    checks on every input outside the corner endTime < now < startTime. *)
Theorem gate_checks_ended_first (now : Z) (ss : list Session) :
  (ss = [] → gate now ss = NotStarted) ∧
  (∀ s, last ss = Some s →
     (ses_endTime s < now → gate now ss = Ended) ∧
     ((now ≤ ses_endTime s)%Z → now < ses_startTime s → gate now ss = NotStarted) ∧
     ((ses_startTime s ≤ now ≤ ses_endTime s)%Z → gate now ss = Json (ses_endTime s - now)) ∧
     (¬ (ses_endTime s < now < ses_startTime s) → gate now ss = gate_spec now ss)).
Proof.
  split.
  - intros ->. reflexivity.
  - intros s Hs. unfold gate, gate_spec. rewrite Hs.
    destruct (Z.ltb_spec (ses_endTime s) now), (Z.ltb_spec now (ses_startTime s));
      repeat split; intros; try reflexivity; lia.
Qed.

(** ** The answer key is stripped *)

(** C8: whenever GET /questions succeeds, the questions it returns are the
    stored questions in the same order, none of them has a correctAnswer
    property, whatever the type of the question, and every other property
    has the value it has in the store. *)
Theorem get_questions_strips_answer_key (now : Z) (st : Store) (body : QuestionsBody) :
  get_questions now st = Json body →
  length (questionsToSend body) = length (questions st) ∧
  Forall (λ q' : jsobj, q' !! "correctAnswer" = None) (questionsToSend body) ∧
  ∀ i q, questions st !! i = Some q →
    ∃ q', questionsToSend body !! i = Some q' ∧
          q' !! "correctAnswer" = None ∧
          ∀ k, k ≠ "correctAnswer" → q' !! k = q !! k.
Proof.
  rewrite get_questions_gate.
  destruct (gate now (sessions st)) as [remaining|]; [|discriminate].
  intros [= <-]. simpl. split_and!.
  - by rewrite length_fmap.
  - apply Forall_fmap, Forall_true. intros q. apply lookup_delete_eq.
  - intros i q Hq. exists (strip_answer q). split_and!.
    + by rewrite list_lookup_fmap, Hq.
    + apply lookup_delete_eq.
    + intros k Hk. by apply lookup_delete_ne.
Qed.

(** ** Sign-in *)

(** A person whose record is in the store keeps getting that record, with
    any casing of the names and after any further requests. *)
Lemma signin_known firstName lastName st i u :
  firstName ≠ "" → lastName ≠ "" →
  list_find (λ u, same_name firstName lastName (u_firstName u) (u_lastName u)) (users st)
    = Some (i, u) →
  ∀ rs uuid' firstName' lastName',
    toLowerCase firstName' = toLowerCase firstName →
    toLowerCase lastName' = toLowerCase lastName →
    signin uuid' firstName' lastName' (run st rs)
      = (run st rs, Json (mkSigninBody (u_id u) (u_role u))).
Proof.
  intros Hf Hl Hfind rs uuid' firstName' lastName' Hf' Hl'.
  unfold signin. rewrite bool_decide_eq_false_2.
  2:{ intros [->| ->].
      - apply Hf, toLowerCase_empty. by rewrite <- Hf', toLowerCase_nil.
      - apply Hl, toLowerCase_empty. by rewrite <- Hl', toLowerCase_nil. }
  destruct (run_users st rs) as [new ->].
  rewrite (list_find_ext _
             (λ u, same_name firstName lastName (u_firstName u) (u_lastName u))).
  2:{ intros x. by apply same_name_casing. }
  by rewrite (list_find_app_l _ _ _ _ _ Hfind).
Qed.

(** C7: for every pair of non-empty names, sign-in succeeds.  When the store
    has no record whose names agree with the pair after lower-casing, which
    is the first sign-in of that person, the call persists exactly one new
    record -- the fresh uuid, the names as given, the role, which is
    teacher exactly when the roster has such a record -- and returns that
    uuid and role; when it has one, the call writes nothing and returns
    the id and the role of the first such record.  Either way every later
    sign-in with the same names in any letter casing -- whatever requests
    were handled in between and whatever uuid is on offer -- returns the
    token and the role of the first one and leaves the store as it is. *)
Theorem signin_idempotent (uuid firstName lastName : string) (st : Store) :
  firstName ≠ "" → lastName ≠ "" →
  ∃ st1 b,
    signin uuid firstName lastName st = (st1, Json b) ∧
    (Forall (λ u, ¬ same_name firstName lastName (u_firstName u) (u_lastName u)) (users st) →
     st1 = set_users st (users st ++ [mkUser uuid firstName lastName (role b)]) ∧
     token b = uuid ∧
     (role b = Teacher
      ↔ Exists (λ t, same_name firstName lastName (t_firstName t) (t_lastName t))
               (teachers st))) ∧
    (∀ i u,
       list_find (λ u, same_name firstName lastName (u_firstName u) (u_lastName u)) (users st)
         = Some (i, u) →
       st1 = st ∧ token b = u_id u ∧ role b = u_role u) ∧
    ∀ rs uuid' firstName' lastName',
      toLowerCase firstName' = toLowerCase firstName →
      toLowerCase lastName' = toLowerCase lastName →
      signin uuid' firstName' lastName' (run st1 rs) = (run st1 rs, Json b).
Proof.
  intros Hf Hl.
  destruct (list_find (λ u, same_name firstName lastName (u_firstName u) (u_lastName u))
              (users st)) as [[i u]|] eqn:Hfind.
  - exists st, (mkSigninBody (u_id u) (u_role u)). split_and!.
    + unfold signin. rewrite bool_decide_eq_false_2 by (intros [?|?]; done).
      by rewrite Hfind.
    + intros Hnone. apply list_find_Some in Hfind as (Hi%list_elem_of_lookup_2 & Hname & _).
      destruct (proj1 (Forall_forall _ _) Hnone u Hi Hname).
    + by intros ? ? [= <- <-].
    + by apply signin_known with (i := i).
  - eexists _, _. split_and!.
    + unfold signin. rewrite bool_decide_eq_false_2 by (intros [?|?]; done).
      rewrite Hfind. reflexivity.
    + intros _. split_and!; [done..|]. simpl. case_bool_decide; split; done.
    + intros ? ? [=].
    + apply signin_known with (i := (0 + length (users st))%nat); [done..|].
      simpl. rewrite list_find_app_r by done. simpl.
      rewrite decide_True by apply same_name_refl. reflexivity.
Qed.

(** ** Marking an open-ended answer *)

Lemma find_open_question questionText qs :
  is_Some (list_find (λ q : jsobj, strict_eq_str (q !! "text") questionText = true)
             (filter (λ q : jsobj, strict_eq_str (q !! "type") "open-ended" = true) qs))
  ↔ Exists (is_open_question questionText) qs.
Proof.
  rewrite Exists_exists. split.
  - intros [[i q] (Hq%list_elem_of_lookup_2 & Htext & _)%list_find_Some].
    apply list_elem_of_filter in Hq as [Htype Hq]. exists q. by repeat split.
  - intros (q & Hq & Htype & Htext).
    apply list_find_elem_of with (x := q); [|done].
    by apply list_elem_of_filter.
Qed.

(** When every check of the handler passes, the submission that [find]
    returned is regraded in place and the response reports the change. *)
Lemma mark_succeeds token studentName questionText newGrade st i sub :
  token ≠ "" → studentName ≠ "" → questionText ≠ "" →
  is_Some (find_user token Teacher (users st)) →
  list_find (λ sub, sub_studentName sub = studentName) (submissions st) = Some (i, sub) →
  Exists (is_open_question questionText) (questions st) →
  mark_open_question token studentName questionText (Some newGrade) st
    = (set_submissions st (<[i := regrade questionText newGrade sub]> (submissions st)),
       Json (mkMarkBody (sub_score (regrade questionText newGrade sub))
               (js_get (default ∅ (sub_openAnswerGrades sub)) questionText)
               newGrade
               (score_change (js_get (default ∅ (sub_openAnswerGrades sub)) questionText)
                             newGrade))).
Proof.
  intros Ht Hn Hq [u Hu] Hsub [q Hquestion]%find_open_question.
  unfold mark_open_question.
  rewrite bool_decide_eq_false_2 by (intros [?|[?|?]]; done).
  rewrite Hu, Hsub. simpl. by rewrite Hquestion.
Qed.

(** Conversely, a successful response means that every check passed. *)
Lemma mark_Json token studentName questionText isCorrect st st1 r :
  mark_open_question token studentName questionText isCorrect st = (st1, Json r) →
  ∃ newGrade i sub,
    isCorrect = Some newGrade ∧
    token ≠ "" ∧ studentName ≠ "" ∧ questionText ≠ "" ∧
    is_Some (find_user token Teacher (users st)) ∧
    list_find (λ sub, sub_studentName sub = studentName) (submissions st) = Some (i, sub) ∧
    Exists (is_open_question questionText) (questions st).
Proof.
  unfold mark_open_question. intros H.
  destruct isCorrect as [newGrade|]; [|discriminate].
  case_bool_decide as Hreq; [discriminate|].
  destruct (find_user token Teacher (users st)) as [u|] eqn:Hu; [|discriminate].
  destruct (list_find _ (submissions st)) as [[i sub]|] eqn:Hsub; [|discriminate].
  simpl in H.
  destruct (list_find _ (filter _ (questions st))) as [q|] eqn:Hquestion; [|discriminate].
  exists newGrade, i, sub. split_and!; try done.
  - intros ->. apply Hreq. by left.
  - intros ->. apply Hreq. right. by left.
  - intros ->. apply Hreq. right. by right.
  - apply find_open_question. by rewrite Hquestion.
Qed.

(** A request that is not answered with success leaves the store alone. *)
Lemma mark_Fail token studentName questionText isCorrect st st1 status e :
  mark_open_question token studentName questionText isCorrect st = (st1, Fail status e) →
  st1 = st.
Proof.
  unfold mark_open_question. intros H.
  repeat case_match; simplify_eq; done.
Qed.

Lemma score_change_same v : score_change (Some v) v = 0.
Proof.
  unfold score_change, strict_eq_bool.
  destruct v as [|[]| | | | |]; reflexivity.
Qed.

(** Right after a verdict is written, the same verdict changes nothing. *)
Lemma score_change_after_set grades questionText v :
  score_change (js_get (js_set grades questionText v) questionText) v = 0.
Proof.
  destruct (js_get_set grades questionText v) as [->|(_ & -> & ->)].
  - apply score_change_same.
  - reflexivity.
Qed.

(** When the handler reads no grade or a boolean, the write that follows
    creates or replaces an own property. *)
Lemma js_set_after_bool (grades : jsobj) questionText (previous : option bool) v :
  js_get grades questionText = JBool <$> previous →
  grades !! questionText = JBool <$> previous ∧
  js_set grades questionText v = <[questionText := v]> grades.
Proof.
  destruct previous as [b|]; simpl.
  - intros Hb%js_get_bool. split; [done|]. by apply js_set_own.
  - intros [Hq Hk]%js_get_None. split; [done|]. apply js_set_plain.
    intros ->. apply Hk. by vm_compute; repeat constructor.
Qed.

Lemma score_change_table (previous : option bool) (b : bool) :
  score_change (JBool <$> previous) (JBool b) = grade_transition previous b.
Proof. by destruct previous as [[]|], b. Qed.

Lemma regrade_score_floor questionText newGrade sub :
  0 ≤ sub_score (regrade questionText newGrade sub).
Proof. unfold regrade. simpl. case_match; lia. Qed.

Lemma regrade_score questionText newGrade sub :
  sub_score (regrade questionText newGrade sub)
    = Z.max 0 (sub_score sub
               + score_change (js_get (default ∅ (sub_openAnswerGrades sub)) questionText) newGrade).
Proof. unfold regrade. simpl. case_match; lia. Qed.

Lemma regrade_regrade questionText newGrade sub :
  regrade questionText newGrade (regrade questionText newGrade sub)
    = regrade questionText newGrade sub.
Proof.
  pose proof (regrade_score_floor questionText newGrade sub) as Hfloor.
  unfold regrade in *. simpl in *.
  rewrite score_change_after_set, js_set_idemp, Z.add_0_r.
  destruct (_ <? 0)%Z eqn:Hlt in |- *; [|done].
  apply Z.ltb_lt in Hlt. lia.
Qed.

Lemma mark_cases token studentName questionText isCorrect st :
  (mark_open_question token studentName questionText isCorrect st).1 = st ∨
  ∃ newGrade i sub,
    isCorrect = Some newGrade ∧
    list_find (λ sub, sub_studentName sub = studentName) (submissions st) = Some (i, sub) ∧
    (mark_open_question token studentName questionText isCorrect st).1
      = set_submissions st (<[i := regrade questionText newGrade sub]> (submissions st)).
Proof.
  destruct (mark_open_question token studentName questionText isCorrect st)
    as [st1 [r|status e]] eqn:H.
  - right. apply mark_Json in H as H'.
    destruct H' as (newGrade & i & sub & -> & ? & ? & ? & ? & Hsub & ?).
    exists newGrade, i, sub. split; [done|]. split; [done|].
    rewrite (mark_succeeds _ _ _ newGrade st i sub) in H by done. by simplify_eq.
  - left. by apply mark_Fail in H.
Qed.

(** ** Grading at submission time never yields a negative score *)

Lemma grade_question_score answers acc q acc' :
  grade_question answers acc q = Some acc' → g_score acc ≤ g_score acc'.
Proof.
  unfold grade_question. intros H.
  repeat case_match; simplify_option_eq; simpl; lia.
Qed.

Lemma grade_loop_score answers qs : ∀ acc g,
  grade_loop answers acc qs = Some g → g_score acc ≤ g_score g.
Proof.
  induction qs as [|q qs IH]; intros acc g H; simpl in H.
  - by simplify_eq.
  - destruct (grade_question answers acc q) as [acc'|] eqn:Hq; [|done].
    apply grade_question_score in Hq. apply IH in H. lia.
Qed.

Lemma submit_cases submittedAt token answers st :
  (submit submittedAt token answers st).1 = st ∨
  ∃ a i user g,
    answers = Some a ∧ token ≠ "" ∧
    find_user token Student (users st) = Some (i, user) ∧
    list_find (λ sub, sub_token sub = token) (submissions st) = None ∧
    grade_submission (questions st) a = Some g ∧
    (submit submittedAt token answers st).1
      = set_submissions st
          (submissions st ++
             [mkSubmission token (u_firstName user +:+ " " +:+ u_lastName user) a
                (Some (stringify_obj (g_openEndedAnswers g))) (Some ∅) (g_score g)
                (g_totalMCQs g) submittedAt]).
Proof.
  unfold submit.
  destruct answers as [a|]; [|by left].
  case_bool_decide as Ht; [by left|].
  destruct (find_user token Student (users st)) as [[i user]|] eqn:Hu; [|by left].
  destruct (list_find _ (submissions st)) as [?|] eqn:Hsub; [by left|].
  destruct (grade_submission (questions st) a) as [g|] eqn:Hg; [|by left].
  right. by exists a, i, user, g.
Qed.

(** How a request changes the list of submissions: not at all, by one
    appended submission, or by regrading the first one of a student name. *)
Lemma handle_submissions st r :
  submissions (handle st r) = submissions st ∨
  (∃ sub, submissions (handle st r) = submissions st ++ [sub] ∧ 0 ≤ sub_score sub) ∨
  (∃ studentName questionText newGrade i sub,
     list_find (λ sub, sub_studentName sub = studentName) (submissions st) = Some (i, sub) ∧
     submissions (handle st r)
       = <[i := regrade questionText newGrade sub]> (submissions st)).
Proof.
  destruct r as [uuid f l|now token e|at_ token answers|token name text v]; simpl.
  - left. unfold signin. by repeat case_match.
  - left. unfold session_start. by repeat case_match.
  - destruct (submit_cases at_ token answers st)
      as [->|(a & i & user & g & _ & _ & _ & _ & Hg & ->)]; [by left|].
    right; left. eexists. split; [done|]. simpl.
    apply grade_loop_score in Hg. simpl in Hg. lia.
  - destruct (mark_cases token name text v st)
      as [->|(newGrade & i & sub & _ & Hsub & ->)]; [by left|].
    right; right. by exists name, text, newGrade, i, sub.
Qed.

Lemma reachable_run st rs : reachable st → all_fresh st rs → reachable (run st rs).
Proof.
  revert st. induction rs as [|r rs IH]; intros st Hst Hfresh; simpl in *; [done|].
  destruct Hfresh as [Hr Hrs]. apply IH; [|done]. by apply reachable_handle.
Qed.

(** ** C5, C6, C1: regrading and the score *)

(** C5: whenever a call of markOpenAnswer succeeds, the same call once more
    (same student, same question, same verdict -- any JSON value, the
    booleans in particular) succeeds too, reports scoreChange = 0 and an
    updatedScore equal to the one of the first call, and leaves the store as
    the first call left it.  The second call reports the verdict of the
    first as previousGrade; the one exception is the question text
    "__proto__", under which the handler's assignment may store nothing,
    and the second call then reads [Object.prototype] as the first did. *)
Theorem regrading_idempotent (token studentName questionText : string)
    (isCorrect : option jsval) (st st1 : Store) (r1 : MarkBody) :
  mark_open_question token studentName questionText isCorrect st = (st1, Json r1) →
  ∃ r2,
    mark_open_question token studentName questionText isCorrect st1 = (st1, Json r2) ∧
    scoreChange r2 = 0 ∧
    updatedScore r2 = updatedScore r1 ∧
    newGrade r2 = newGrade r1 ∧
    (previousGrade r2 = Some (newGrade r1) ∨
     questionText = "__proto__" ∧ previousGrade r1 = Some JProto ∧
     previousGrade r2 = Some JProto).
Proof.
  intros H. apply mark_Json in H as H'.
  destruct H' as (v & i & sub & -> & Ht & Hn & Hq & Hu & Hsub & Hquestion).
  rewrite (mark_succeeds _ _ _ v st i sub) in H by done.
  injection H as <- <-.
  assert (list_find (λ sub, sub_studentName sub = studentName)
            (<[i := regrade questionText v sub]> (submissions st))
          = Some (i, regrade questionText v sub)) as Hsub1.
  { apply list_find_Some in Hsub as (Hi & Hname & Hfirst).
    apply list_find_insert_Some. right; left.
    split_and!; eauto using lookup_lt_Some. }
  eexists. split.
  - rewrite (mark_succeeds _ _ _ v _ i (regrade questionText v sub)) by done.
    rewrite regrade_regrade. unfold set_submissions at 1. simpl.
    by rewrite list_insert_insert_eq.
  - simpl. split_and!; try done.
    + apply score_change_after_set.
    + destruct (js_get_set (default ∅ (sub_openAnswerGrades sub)) questionText v)
        as [Hget|(Hproto & Hset & Hget)].
      * by left.
      * right. by rewrite Hset.
Qed.

(** C6: if every stored score is at least 0 then it still is after any
    sequence of requests, sequences of markOpenAnswer in particular; and a
    successful markOpenAnswer persists and reports the score floored at 0:
    max(0, score + scoreChange). *)
Theorem score_floor :
  (∀ st rs,
     Forall (λ sub, 0 ≤ sub_score sub) (submissions st) →
     Forall (λ sub, 0 ≤ sub_score sub) (submissions (run st rs))) ∧
  (∀ token studentName questionText isCorrect st st1 r,
     mark_open_question token studentName questionText isCorrect st = (st1, Json r) →
     ∃ i sub sub',
       list_find (λ sub, sub_studentName sub = studentName) (submissions st) = Some (i, sub) ∧
       submissions st1 !! i = Some sub' ∧
       sub_score sub' = updatedScore r ∧
       updatedScore r = Z.max 0 (sub_score sub + scoreChange r)).
Proof.
  split.
  - intros st rs. revert st. induction rs as [|r rs IH]; intros st Hst; simpl; [done|].
    apply IH.
    destruct (handle_submissions st r)
      as [->|[(sub & -> & Hsub)|(name & text & v & i & sub & _ & ->)]].
    + done.
    + apply Forall_app. split; [done|]. by constructor.
    + apply Forall_insert; [done|]. apply regrade_score_floor.
  - intros token studentName questionText isCorrect st st1 r H.
    apply mark_Json in H as H'.
    destruct H' as (v & i & sub & -> & Ht & Hn & Hq & Hu & Hsub & Hquestion).
    rewrite (mark_succeeds _ _ _ v st i sub) in H by done.
    injection H as <- <-.
    exists i, sub, (regrade questionText v sub). split_and!; [done| |done|].
    + simpl. apply list_lookup_insert_eq.
      apply list_find_Some in Hsub as (Hi & _). eauto using lookup_lt_Some.
    + simpl. apply regrade_score.
Qed.

(** C1 (amended): for every store, submission and open-ended question on
    which the checks of markOpenAnswer pass, every boolean verdict, and a
    previous grade that the handler reads under the question's text as
    ungraded ([undefined]), true or false: scoreChange is the entry of the
    grade transition table for that previous grade and the verdict; the new
    verdict is recorded in openAnswerGrades under the question's text; and
    the submission's score becomes max(0, score + scoreChange), which is
    score + scoreChange whenever that sum is not negative.  Nothing else in
    the store changes.  (The handler does not read ungraded where the
    question's text names a member of Object.prototype and no grade is
    stored; nor is a stored grade that is not a boolean one of the three.) *)
Theorem mark_follows_transition_table (token studentName questionText : string)
    (b : bool) (previous : option bool) (st : Store) (i : nat) (sub : Submission) :
  token ≠ "" → studentName ≠ "" → questionText ≠ "" →
  is_Some (find_user token Teacher (users st)) →
  list_find (λ sub, sub_studentName sub = studentName) (submissions st) = Some (i, sub) →
  Exists (is_open_question questionText) (questions st) →
  js_get (default ∅ (sub_openAnswerGrades sub)) questionText = JBool <$> previous →
  let change := grade_transition previous b in
  let sub' :=
    mkSubmission (sub_token sub) (sub_studentName sub) (sub_answers sub)
      (sub_openEndedAnswers sub)
      (Some (<[questionText := JBool b]> (default ∅ (sub_openAnswerGrades sub))))
      (Z.max 0 (sub_score sub + change))
      (sub_totalMCQs sub) (sub_submittedAt sub) in
  mark_open_question token studentName questionText (Some (JBool b)) st
    = (set_submissions st (<[i := sub']> (submissions st)),
       Json (mkMarkBody (Z.max 0 (sub_score sub + change)) (JBool <$> previous)
               (JBool b) change)) ∧
  (0 ≤ sub_score sub + change → sub_score sub' = sub_score sub + change).
Proof.
  intros Ht Hn Hq Hu Hsub Hquestion Hprev change sub'. split.
  - rewrite (mark_succeeds _ _ _ (JBool b) st i sub) by done.
    rewrite regrade_score, Hprev, score_change_table.
    repeat f_equal. unfold regrade, sub'.
    rewrite Hprev, score_change_table. fold change.
    rewrite (proj2 (js_set_after_bool _ _ _ (JBool b) Hprev)).
    f_equal. case_match eqn:Hlt; [apply Z.ltb_lt in Hlt|apply Z.ltb_ge in Hlt]; lia.
  - simpl. lia.
Qed.

(** ** The floor is not reached while every verdict is a boolean *)

Lemma true_grades_insert (grades : jsobj) questionText b :
  map_Forall (λ _ v, ∃ b, v = JBool b) grades →
  true_grades (<[questionText := JBool b]> grades)
    = true_grades grades + score_change (grades !! questionText) (JBool b).
Proof.
  intros Hbool. unfold true_grades.
  set (P := λ kv : string * jsval, strict_eq_bool (Some kv.2) true = true).
  assert (grades !! questionText = Some (JBool true) →
          filter P grades !! questionText = Some (JBool true)) as Htrue.
  { intros Hq. by apply map_lookup_filter_Some. }
  assert (grades !! questionText ≠ Some (JBool true) →
          filter P grades !! questionText = None) as Hother.
  { intros Hq. apply map_lookup_filter_None. right. intros x Hx HP.
    destruct (Hbool _ _ Hx) as [[] ->]; [done|discriminate]. }
  assert (grades !! questionText = None ∨
          ∃ b', grades !! questionText = Some (JBool b')) as Hprev.
  { destruct (grades !! questionText) as [v|] eqn:Hv; [right|by left].
    destruct (Hbool _ _ Hv) as [b' ->]. by exists b'. }
  destruct b.
  - rewrite map_filter_insert_True by done.
    rewrite map_size_insert.
    destruct Hprev as [Hq|[[] Hq]]; rewrite Hq in *.
    + rewrite Hother by done. simpl. lia.
    + rewrite Htrue by done. simpl. lia.
    + rewrite Hother by done. simpl. lia.
  - rewrite map_filter_insert_False by done.
    rewrite map_filter_delete.
    destruct Hprev as [Hq|[[] Hq]]; rewrite Hq in *.
    + rewrite map_size_delete, Hother by done. simpl. lia.
    + rewrite <- (insert_id (filter P grades) questionText (JBool true)) at 2 by auto.
      rewrite <- insert_delete_eq.
      rewrite map_size_insert_None by apply lookup_delete_eq. simpl. lia.
    + rewrite map_size_delete, Hother by done. simpl. lia.
Qed.

Lemma regrade_boolean questionText b sub :
  questionText ∉ object_prototype_members →
  graded_by_booleans sub →
  graded_by_booleans (regrade questionText (JBool b) sub) ∧
  sub_score (regrade questionText (JBool b) sub)
    = sub_score sub
      + score_change (js_get (default ∅ (sub_openAnswerGrades sub)) questionText) (JBool b).
Proof.
  intros Hplain [Hbool Hcount].
  pose proof (true_grades_insert _ questionText b Hbool) as Hins.
  rewrite <- (js_get_plain _ _ Hplain) in Hins.
  assert (questionText ≠ "__proto__") as Hproto
    by (intros ->; apply Hplain; by vm_compute; repeat constructor).
  assert (0 ≤ true_grades (<[questionText := JBool b]>
                             (default ∅ (sub_openAnswerGrades sub)))) as Hnonneg
    by (unfold true_grades; lia).
  assert (sub_score (regrade questionText (JBool b) sub)
          = sub_score sub
            + score_change (js_get (default ∅ (sub_openAnswerGrades sub)) questionText) (JBool b))
    as Hscore by (rewrite regrade_score; lia).
  split; [|done]. split.
  - simpl. rewrite js_set_plain by done. apply map_Forall_insert_2; [by exists b|done].
  - rewrite Hscore. simpl. rewrite js_set_plain by done. lia.
Qed.

Lemma graded_by_booleans_handle st r :
  boolean_verdict r →
  Forall graded_by_booleans (submissions st) →
  Forall graded_by_booleans (submissions (handle st r)).
Proof.
  intros Hr Hst.
  destruct r as [uuid f l|now token e|at_ token answers|token name text v]; simpl.
  - unfold signin. by repeat case_match.
  - unfold session_start. by repeat case_match.
  - destruct (submit_cases at_ token answers st)
      as [->|(a & i & user & g & _ & _ & _ & _ & Hg & ->)]; [done|].
    simpl. apply Forall_app. split; [done|]. constructor; [|done].
    split; simpl; [apply map_Forall_empty|].
    apply grade_loop_score in Hg. simpl in Hg.
    unfold true_grades. rewrite map_filter_empty, map_size_empty. simpl. lia.
  - destruct (mark_cases token name text v st)
      as [->|(newGrade & i & sub & -> & Hsub & ->)]; [done|].
    destruct Hr as [[b ->] Hplain]. simpl.
    apply Forall_insert; [done|]. apply regrade_boolean; [done|].
    apply list_find_Some in Hsub as (Hi & _).
    by apply (Forall_lookup_1 _ _ _ _ Hst Hi).
Qed.

Lemma graded_by_booleans_run rs : ∀ st,
  Forall boolean_verdict rs →
  Forall graded_by_booleans (submissions st) →
  Forall graded_by_booleans (submissions (run st rs)).
Proof.
  induction rs as [|r rs IH]; intros st Hrs Hst; simpl; [done|].
  apply Forall_cons in Hrs as [Hr Hrs].
  apply IH; [done|]. by apply graded_by_booleans_handle.
Qed.

(** In a store that was built from the initial one with boolean verdicts
    only, for question texts that no object inherits, a successful mark of
    that kind changes the score by exactly scoreChange: the floor at 0 does
    not come into play. *)
Lemma boolean_verdicts_never_reach_the_floor ts qs rs token studentName questionText b st1 r :
  Forall boolean_verdict rs →
  questionText ∉ object_prototype_members →
  mark_open_question token studentName questionText (Some (JBool b)) (run (initial ts qs) rs)
    = (st1, Json r) →
  ∃ i sub,
    list_find (λ sub, sub_studentName sub = studentName)
              (submissions (run (initial ts qs) rs)) = Some (i, sub) ∧
    updatedScore r = sub_score sub + scoreChange r.
Proof.
  intros Hrs Hplain H.
  assert (Forall graded_by_booleans (submissions (run (initial ts qs) rs))) as Hinv.
  { apply graded_by_booleans_run; [done|]. constructor. }
  apply mark_Json in H as H'.
  destruct H' as (v & i & sub & [= <-] & Ht & Hn & Hq & Hu & Hsub & Hquestion).
  rewrite (mark_succeeds _ _ _ (JBool b) _ i sub) in H by done.
  injection H as <- <-. exists i, sub. split; [done|]. simpl.
  apply regrade_boolean; [done|].
  apply list_find_Some in Hsub as (Hi & _).
  by apply (Forall_lookup_1 _ _ _ _ Hinv Hi).
Qed.

(** ** C3: one submission per token *)

Lemma find_user_app token r us new :
  is_Some (find_user token r us) → is_Some (find_user token r (us ++ new)).
Proof.
  unfold find_user. intros [[i u] H]. exists (i, u). by apply list_find_app_l.
Qed.

Lemma regrade_token questionText newGrade sub :
  sub_token (regrade questionText newGrade sub) = sub_token sub.
Proof. reflexivity. Qed.

Lemma submissions_ok_handle st r : submissions_ok st → submissions_ok (handle st r).
Proof.
  intros [Hnodup Hall].
  assert (∀ new, Forall (λ sub, sub_token sub ≠ "" ∧
                   is_Some (find_user (sub_token sub) Student (users st ++ new)))
                 (submissions st)) as Hall'.
  { intros new. eapply Forall_impl; [exact Hall|].
    intros sub [? ?]. eauto using find_user_app. }
  destruct r as [uuid f l|now token e|at_ token answers|token name text v]; simpl.
  - unfold signin. repeat case_match; simpl; try done; (split; [done|apply Hall']).
  - unfold session_start. repeat case_match; done.
  - destruct (submit_cases at_ token answers st)
      as [->|(a & i & user & g & _ & Ht & Hu & Hnone & _ & ->)]; [done|].
    split; simpl.
    + rewrite fmap_app. apply NoDup_app. split_and!; [done| |].
      * intros t Ht1 Ht2. apply list_elem_of_fmap in Ht1 as (sub & -> & Hsub).
        apply list_elem_of_singleton in Ht2. simpl in Ht2.
        apply list_find_None in Hnone.
        by apply (proj1 (Forall_forall _ _) Hnone sub Hsub).
      * apply NoDup_singleton.
    + apply Forall_app. split; [done|]. constructor; [|done]. simpl.
      split; [done|]. by rewrite Hu.
  - destruct (mark_cases token name text v st)
      as [->|(newGrade & i & sub & _ & Hsub & ->)]; [done|].
    apply list_find_Some in Hsub as (Hi & _ & _).
    split; simpl.
    + rewrite list_fmap_insert, regrade_token. by rewrite list_insert_id by by rewrite list_lookup_fmap, Hi.
    + apply Forall_insert; [done|]. rewrite regrade_token.
      by apply (Forall_lookup_1 _ _ _ _ Hall Hi).
Qed.

Lemma reachable_submissions_ok st : reachable st → submissions_ok st.
Proof.
  induction 1 as [ts qs|st r _ IH _].
  - split; simpl; [apply NoDup_nil_2|constructor].
  - by apply submissions_ok_handle.
Qed.

Lemma submit_duplicate st sub submittedAt answers :
  submissions_ok st → sub ∈ submissions st →
  submit submittedAt (sub_token sub) (Some answers) st = (st, DuplicateSubmission).
Proof.
  intros [_ Hall] Hsub.
  destruct (proj1 (Forall_forall _ _) Hall sub Hsub) as [Ht [[i u] Hu]].
  unfold submit. rewrite bool_decide_eq_false_2 by done. rewrite Hu.
  destruct (list_find_elem_of (λ s, sub_token s = sub_token sub) _ sub Hsub eq_refl)
    as [[j s] ->].
  done.
Qed.

(** [server.js] has the same existence check in front of its insert. *)
Lemma ServerJs_submit_duplicate st sub submittedAt answers :
  submissions_ok st → sub ∈ submissions st →
  ServerJs.submit submittedAt (sub_token sub) (Some answers) st = (st, DuplicateSubmission).
Proof.
  intros [_ Hall] Hsub.
  destruct (proj1 (Forall_forall _ _) Hall sub Hsub) as [Ht [[i u] Hu]].
  unfold ServerJs.submit. rewrite bool_decide_eq_false_2 by done. rewrite Hu.
  destruct (list_find_elem_of (λ s, sub_token s = sub_token sub) _ sub Hsub eq_refl)
    as [[j s] ->].
  done.
Qed.

(** C3: in every reachable store, a submit call with the token of a stored
    submission fails with DuplicateSubmission (status 400) whatever answers
    it carries and leaves the store as it is; and no two stored submissions
    have the same token. *)
Theorem submit_once (st : Store) :
  reachable st →
  (∀ sub submittedAt answers,
     sub ∈ submissions st →
     submit submittedAt (sub_token sub) (Some answers) st
       = (st, Fail 400 "You have already submitted your answers.")) ∧
  NoDup (sub_token <$> submissions st).
Proof.
  intros Hst%reachable_submissions_ok. split.
  - intros sub submittedAt answers Hsub. by apply submit_duplicate.
  - apply Hst.
Qed.

(** ** C9: the score can exceed totalMCQs *)

Lemma regrade_totalMCQs questionText newGrade sub :
  sub_totalMCQs (regrade questionText newGrade sub) = sub_totalMCQs sub.
Proof. reflexivity. Qed.

(** ** C10: the submission to grade is found by its exact student name *)

(** A submission that comes after another one with the same student name
    is out of reach for every request; the earlier one keeps its name. *)
Lemma namesake_handle st r (i j : nat) subj :
  (i < j)%nat →
  (∃ subi, submissions st !! i = Some subi ∧
           sub_studentName subi = sub_studentName subj) →
  submissions st !! j = Some subj →
  (∃ subi, submissions (handle st r) !! i = Some subi ∧
           sub_studentName subi = sub_studentName subj) ∧
  submissions (handle st r) !! j = Some subj.
Proof.
  intros Hij (subi & Hi & Hname) Hj.
  destruct (handle_submissions st r)
    as [->|[(sub & -> & _)|(name & text & v & k & sub & Hfind & ->)]].
  - eauto.
  - split; [exists subi; split; [|done]|]; by apply lookup_app_l_Some.
  - apply list_find_Some in Hfind as (Hk & Hsub & Hfirst).
    assert (k ≠ j) as Hkj.
    { intros ->. rewrite Hj in Hk. injection Hk as <-.
      apply (Hfirst i subi Hi Hij). congruence. }
    split; [|by rewrite list_lookup_insert_ne].
    destruct (decide (k = i)) as [->|Hki].
    + rewrite Hi in Hk. injection Hk as <-.
      exists (regrade text v subi). split; [|done].
      apply list_lookup_insert_eq. eauto using lookup_lt_Some.
    + exists subi. by rewrite list_lookup_insert_ne.
Qed.

Lemma namesake_run rs : ∀ st (i j : nat) subj,
  (i < j)%nat →
  (∃ subi, submissions st !! i = Some subi ∧
           sub_studentName subi = sub_studentName subj) →
  submissions st !! j = Some subj →
  submissions (run st rs) !! j = Some subj.
Proof.
  induction rs as [|r rs IH]; intros st i j subj Hij Hi Hj; simpl; [done|].
  destruct (namesake_handle st r i j subj Hij Hi Hj) as [Hi' Hj'].
  by apply (IH _ i j subj).
Qed.

(** C10: (1) a successful markOpenAnswer regrades the first submission, in
    submission order, whose stored studentName is exactly the studentName of
    the request, and no other; (2) hence of two submissions with the same
    studentName the later one is never changed, by any sequence of requests;
    (3) and a request whose studentName is not exactly a stored one -- one
    that differs from a stored name in letter casing only, say -- is
    answered with 404 NotFound and changes nothing. *)
Theorem mark_finds_first_exact_name :
  (∀ token studentName questionText isCorrect st st1 r,
     mark_open_question token studentName questionText isCorrect st = (st1, Json r) →
     ∃ (i : nat) sub newGrade,
       isCorrect = Some newGrade ∧
       submissions st !! i = Some sub ∧
       sub_studentName sub = studentName ∧
       (∀ (j : nat) sub', (j < i)%nat → submissions st !! j = Some sub' →
                          sub_studentName sub' ≠ studentName) ∧
       submissions st1 = <[i := regrade questionText newGrade sub]> (submissions st)) ∧
  (∀ st (i j : nat) subi subj rs,
     (i < j)%nat →
     submissions st !! i = Some subi →
     submissions st !! j = Some subj →
     sub_studentName subi = sub_studentName subj →
     submissions (run st rs) !! j = Some subj) ∧
  (∀ token studentName questionText newGrade st,
     token ≠ "" → studentName ≠ "" → questionText ≠ "" →
     is_Some (find_user token Teacher (users st)) →
     Forall (λ sub, sub_studentName sub ≠ studentName) (submissions st) →
     mark_open_question token studentName questionText (Some newGrade) st
       = (st, Fail 404 "No submission found for this student.")).
Proof.
  split_and!.
  - intros token studentName questionText isCorrect st st1 r H.
    apply mark_Json in H as H'.
    destruct H' as (v & i & sub & -> & Ht & Hn & Hq & Hu & Hsub & Hquestion).
    rewrite (mark_succeeds _ _ _ v st i sub) in H by done.
    injection H as <- <-.
    apply list_find_Some in Hsub as (Hi & Hname & Hfirst).
    exists i, sub, v. split_and!; try done.
    intros j sub' Hji Hj. by apply (Hfirst j sub').
  - intros st i j subi subj rs Hij Hi Hj Hname.
    apply (namesake_run rs st i j subj Hij); [|done]. by exists subi.
  - intros token studentName questionText newGrade st Ht Hn Hq [u Hu] Hnone.
    unfold mark_open_question.
    rewrite bool_decide_eq_false_2 by (intros [?|[?|?]]; done).
    rewrite Hu.
    assert (list_find (λ sub, sub_studentName sub = studentName) (submissions st) = None)
      as -> by by apply list_find_None.
    done.
Qed.

(** ** C4: grading at submission time *)

Lemma answered_correctly_strings answers q a c :
  answer_for answers q = Some (JStr a) → q !! "correctAnswer" = Some (JStr c) →
  answered_correctly answers q ↔ a ≠ "" ∧ toLowerCase a = toLowerCase c.
Proof. unfold answered_correctly. by intros -> ->. Qed.

Lemma answered_correctly_truthy answers q :
  answered_correctly answers q → truthy (answer_for answers q) = true.
Proof.
  unfold answered_correctly.
  destruct (answer_for answers q) as [[|b|n|a|l|f|]|]; try done.
  destruct (q !! "correctAnswer") as [[|b'|n'|c|l'|f'|]|]; try done.
  intros [Ha _]. simpl. by rewrite bool_decide_eq_false_2.
Qed.

Lemma plain_id_not_proto q : plain_id q → prop_key (q !! "id") ≠ "__proto__".
Proof. intros Hq Heq. apply Hq. rewrite Heq. by vm_compute; repeat constructor. Qed.

Lemma grade_question_as_spec answers acc q :
  plain_id q → well_typed answers q →
  grade_question answers acc q = Some (grade_question_spec answers acc q).
Proof.
  intros Hplain Htyped. unfold grade_question_spec.
  destruct (decide (is_mcq q)) as [Hmcq|Hmcq].
  - unfold grade_question. rewrite Hmcq.
    rewrite !(js_get_plain _ _ Hplain).
    fold (answer_for answers q).
    destruct (truthy (answer_for answers q)) eqn:Htruthy.
    + destruct (Htyped Hmcq Htruthy) as [[a Ha] [c Hc]].
      pose proof (answered_correctly_strings answers q a c Ha Hc) as Hiff.
      rewrite Ha in Htruthy. rewrite Ha, Hc. simpl in *.
      apply negb_true_iff, bool_decide_eq_false in Htruthy.
      case_bool_decide; [rewrite decide_True by tauto|rewrite decide_False by tauto];
        simpl; repeat f_equal; lia.
    + rewrite decide_False.
      * destruct acc; simpl. repeat f_equal. lia.
      * intros H%answered_correctly_truthy. congruence.
  - unfold grade_question. rewrite (not_true_is_false _ Hmcq).
    destruct (decide (is_open q)) as [Hopen|Hopen].
    + rewrite Hopen. rewrite (js_get_plain _ _ Hplain).
      rewrite js_set_plain by by apply plain_id_not_proto.
      do 3 f_equal.
      unfold or_default, stored_answer. by destruct (answers !! _).
    + by rewrite (not_true_is_false _ Hopen).
Qed.

Lemma is_open_not_mcq q : is_open q → ¬ is_mcq q.
Proof.
  unfold is_open, is_mcq, strict_eq_str.
  destruct (q !! "type") as [[| | |s| | |]|]; try done.
  intros ->%bool_decide_eq_true. by vm_compute.
Qed.

Lemma spec_totalMCQs answers acc q :
  g_totalMCQs (grade_question_spec answers acc q)
    = g_totalMCQs acc + (if decide (is_mcq q) then 1 else 0).
Proof. unfold grade_question_spec. repeat case_decide; simpl; lia. Qed.

Lemma spec_score answers acc q :
  g_score (grade_question_spec answers acc q)
    = g_score acc + (if decide (is_mcq q ∧ answered_correctly answers q) then 1 else 0).
Proof. unfold grade_question_spec. repeat case_decide; simpl; try lia; tauto. Qed.

Lemma spec_openEndedAnswers answers acc q k :
  g_openEndedAnswers (grade_question_spec answers acc q) !! k
    = if decide (is_open q ∧ prop_key (q !! "id") = k)
      then Some (stored_answer answers k)
      else g_openEndedAnswers acc !! k.
Proof.
  unfold grade_question_spec.
  destruct (decide (is_mcq q)) as [Hmcq|Hmcq]; simpl.
  - rewrite decide_False; [done|]. intros [Ho _]. by apply is_open_not_mcq in Ho.
  - destruct (decide (is_open q)) as [Ho|Ho]; simpl.
    + destruct (decide (prop_key (q !! "id") = k)) as [<-|Hk].
      * rewrite lookup_insert_eq. by rewrite decide_True.
      * rewrite lookup_insert_ne by done. rewrite decide_False; [done|tauto].
    + rewrite decide_False; [done|tauto].
Qed.

Lemma length_filter_cons {A} (P : A → Prop) `{!∀ x, Decision (P x)} x l :
  Z.of_nat (length (filter P (x :: l)))
    = (if decide (P x) then 1 else 0) + Z.of_nat (length (filter P l)).
Proof. rewrite filter_cons. case_decide; simpl length; lia. Qed.

Lemma grade_loop_as_spec answers qs :
  Forall (λ q, plain_id q ∧ well_typed answers q) qs →
  ∀ acc, ∃ g,
    grade_loop answers acc qs = Some g ∧
    g_totalMCQs g = g_totalMCQs acc + Z.of_nat (length (filter is_mcq qs)) ∧
    g_score g
      = g_score acc
        + Z.of_nat (length (filter (λ q, is_mcq q ∧ answered_correctly answers q) qs)) ∧
    ∀ k, g_openEndedAnswers g !! k
         = if decide (Exists (λ q, is_open q ∧ prop_key (q !! "id") = k) qs)
           then Some (stored_answer answers k)
           else g_openEndedAnswers acc !! k.
Proof.
  induction 1 as [|q qs [Hplain Hq] Hqs IH]; intros acc.
  - exists acc. simpl. split_and!; [done|lia|lia|].
    done.
  - simpl grade_loop. rewrite (grade_question_as_spec answers acc q Hplain Hq).
    destruct (IH (grade_question_spec answers acc q)) as (g & -> & Htotal & Hscore & Hopen).
    exists g. split; [done|]. split_and!.
    + rewrite Htotal, spec_totalMCQs, length_filter_cons. lia.
    + rewrite Hscore, spec_score, length_filter_cons. lia.
    + intros k. rewrite Hopen, spec_openEndedAnswers.
      destruct (decide (Exists _ qs)) as [Hex|Hex].
      * by rewrite decide_True by by apply Exists_cons_tl.
      * destruct (decide (is_open q ∧ prop_key (q !! "id") = k)) as [Hhd|Hhd].
        -- by rewrite decide_True by by apply Exists_cons_hd.
        -- rewrite decide_False; [done|]. by intros [?|?]%Exists_cons.
Qed.

(** The loop of [server.js] computes the same score and totalMCQs. *)
Lemma ServerJs_grade_loop answers qs : ∀ acc,
  ServerJs.grade_loop answers (g_score acc, g_totalMCQs acc) qs
    = (λ g, (g_score g, g_totalMCQs g)) <$> grade_loop answers acc qs.
Proof.
  induction qs as [|q qs IH]; intros acc; simpl; [done|].
  unfold ServerJs.grade_question, grade_question.
  repeat (case_match; simplify_option_eq; try done); by rewrite <- IH.
Qed.

Lemma grade_loop_foldl answers qs :
  Forall (λ q, plain_id q ∧ well_typed answers q) qs →
  ∀ acc, grade_loop answers acc qs = Some (foldl (grade_question_spec answers) acc qs).
Proof.
  induction 1 as [|q qs [Hplain Hq] Hqs IH]; intros acc; simpl; [done|].
  by rewrite (grade_question_as_spec answers acc q Hplain Hq).
Qed.

(** What a successful POST /submit persists is the result of the loop. *)
Lemma submit_persists_grading submittedAt token answers st st1 body :
  submit submittedAt token answers st = (st1, Json body) →
  ∃ a g sub,
    answers = Some a ∧
    grade_submission (questions st) a = Some g ∧
    submissions st1 = submissions st ++ [sub] ∧
    sub_token sub = token ∧ sub_answers sub = a ∧
    sub_score sub = g_score g ∧ sub_totalMCQs sub = g_totalMCQs g ∧
    sub_openEndedAnswers sub = Some (stringify_obj (g_openEndedAnswers g)) ∧
    sub_openAnswerGrades sub = Some ∅ ∧
    body = mkSubmitBody (g_score g) (g_totalMCQs g).
Proof.
  unfold submit. intros H.
  repeat case_match; simplify_eq.
  eexists _, _, _. split_and!; done.
Qed.

(** C4 (amended): for every question list whose ids are not names of
    members of Object.prototype, and every answer map in which each
    non-empty answer to a multiple-choice question is a string, as is the
    correctAnswer of that question, grading goes through the questions once,
    in order, and: for each multiple-choice question it increments totalMCQs,
    and increments score iff the answer for that question id exists, is not
    empty, and equals correctAnswer when both are lower-cased; for each
    open-ended question it stores under the question id the submitted answer
    if it exists and is not empty (not falsy), and the literal "No answer"
    otherwise; questions of any other type change nothing.  So totalMCQs is
    the number of multiple-choice questions, score the number of those
    answered correctly, and openEndedAnswers has exactly the ids of the
    open-ended questions as keys. *)
Theorem grading_rule (qs : list jsobj) (answers : jsobj) :
  Forall plain_id qs →
  Forall (well_typed answers) qs →
  (∀ acc q, q ∈ qs →
     grade_question answers acc q = Some (grade_question_spec answers acc q)) ∧
  ∃ g,
    grade_submission qs answers = Some g ∧
    g = foldl (grade_question_spec answers) (mkGrading 0 0 ∅) qs ∧
    g_totalMCQs g = Z.of_nat (length (filter is_mcq qs)) ∧
    g_score g
      = Z.of_nat (length (filter (λ q, is_mcq q ∧ answered_correctly answers q) qs)) ∧
    ∀ k, g_openEndedAnswers g !! k
         = if decide (Exists (λ q, is_open q ∧ prop_key (q !! "id") = k) qs)
           then Some (stored_answer answers k)
           else None.
Proof.
  intros Hplain Htyped.
  assert (Forall (λ q, plain_id q ∧ well_typed answers q) qs) as Hboth.
  { apply Forall_forall. intros q Hq.
    split; [by apply (proj1 (Forall_forall _ _) Hplain)
           |by apply (proj1 (Forall_forall _ _) Htyped)]. }
  split.
  - intros acc q Hq.
    by apply grade_question_as_spec; apply (proj1 (Forall_forall _ _) Hboth q Hq).
  - destruct (grade_loop_as_spec answers qs Hboth (mkGrading 0 0 ∅))
      as (g & Hg & Htotal & Hscore & Hopen).
    exists g. split_and!.
    + done.
    + unfold grade_submission in Hg.
      rewrite grade_loop_foldl in Hg by done. by injection Hg.
    + rewrite Htotal. simpl. lia.
    + rewrite Hscore. simpl. lia.
    + intros k. rewrite Hopen. cbn [g_openEndedAnswers]. by rewrite lookup_empty.
Qed.

(** * Further properties of the handlers *)

(** ** Errors write nothing *)

(** X1: Whenever one of the writing handlers, of either variant, answers with an
    error status, the store it returns is the store it was given. *)
Theorem failed_requests_write_nothing :
  (∀ uuid firstName lastName st st1 status e,
     signin uuid firstName lastName st = (st1, Fail status e) → st1 = st) ∧
  (∀ now token endTime st st1 status e,
     session_start now token endTime st = (st1, Fail status e) → st1 = st) ∧
  (∀ submittedAt token answers st st1 status e,
     submit submittedAt token answers st = (st1, Fail status e) → st1 = st) ∧
  (∀ token studentName questionText isCorrect st st1 status e,
     mark_open_question token studentName questionText isCorrect st = (st1, Fail status e) →
     st1 = st) ∧
  (∀ now token st st1 status e,
     ServerJs.session_start now token st = (st1, Fail status e) → st1 = st) ∧
  (∀ submittedAt token answers st st1 status e,
     ServerJs.submit submittedAt token answers st = (st1, Fail status e) → st1 = st).
Proof.
  split_and!.
  - intros *. unfold signin. repeat case_match; intros; simplify_eq; done.
  - intros *. unfold session_start. repeat case_match; intros; simplify_eq; done.
  - intros *. unfold submit. repeat case_match; intros; simplify_eq; done.
  - intros *. apply mark_Fail.
  - intros *. unfold ServerJs.session_start. repeat case_match; intros; simplify_eq; done.
  - intros *. unfold ServerJs.submit. repeat case_match; intros; simplify_eq; done.
Qed.

(** ** The store only grows *)

Lemma handle_sessions st r : sessions st `prefix_of` sessions (handle st r).
Proof.
  destruct r; simpl; handler_cases; try done; by apply prefix_app_r.
Qed.

Lemma handle_submissions_length st r :
  (length (submissions st) ≤ length (submissions (handle st r)))%nat.
Proof.
  destruct (handle_submissions st r) as [->|[(sub & -> & _)|(? & ? & ? & ? & ? & _ & ->)]].
  - done.
  - rewrite length_app. lia.
  - by rewrite length_insert.
Qed.

(** X2: Whatever requests are handled: the teacher roster and the questions
    stay as provisioned, users and sessions are only appended to (what was
    there remains, in place), and the number of submissions never drops. *)
Theorem store_only_grows (st : Store) (rs : list Request) :
  teachers (run st rs) = teachers st ∧
  questions (run st rs) = questions st ∧
  users st `prefix_of` users (run st rs) ∧
  sessions st `prefix_of` sessions (run st rs) ∧
  (length (submissions st) ≤ length (submissions (run st rs)))%nat.
Proof.
  revert st. induction rs as [|r rs IH]; intros st; simpl; [done|].
  destruct (IH (handle st r)) as (-> & -> & Hu & Hs & Hl).
  split_and!.
  - apply handle_teachers.
  - apply handle_questions.
  - etrans; [|exact Hu]. destruct (handle_users st r) as [new ->]. by apply prefix_app_r.
  - etrans; [|exact Hs]. apply handle_sessions.
  - etrans; [|exact Hl]. apply handle_submissions_length.
Qed.

(** ** What a submission never loses *)

Lemma same_submission_data_handle st r (i : nat) sub :
  submissions st !! i = Some sub →
  ∃ sub', submissions (handle st r) !! i = Some sub' ∧ same_submission_data sub sub'.
Proof.
  intros Hi.
  destruct (handle_submissions st r)
    as [->|[(new & -> & _)|(name & text & v & k & target & Hfind & ->)]].
  - by exists sub.
  - exists sub. split; [by apply lookup_app_l_Some|done].
  - apply list_find_Some in Hfind as (Hk & _).
    destruct (decide (k = i)) as [->|Hki].
    + rewrite Hi in Hk. injection Hk as <-.
      exists (regrade text v sub). split; [|done].
      apply list_lookup_insert_eq. eauto using lookup_lt_Some.
    + exists sub. split; [by rewrite list_lookup_insert_ne|done].
Qed.

(** X3: A stored submission stays at its position through any requests, and
    its token, student name, answers, open-ended answers, totalMCQs and
    submission time are never written again: grading touches the score and
    the grades only. *)
Theorem submission_data_is_never_rewritten (st : Store) (rs : list Request)
    (i : nat) (sub : Submission) :
  submissions st !! i = Some sub →
  ∃ sub', submissions (run st rs) !! i = Some sub' ∧ same_submission_data sub sub'.
Proof.
  revert st sub. induction rs as [|r rs IH]; intros st sub Hi; simpl.
  - by exists sub.
  - destruct (same_submission_data_handle st r i sub Hi) as (sub1 & Hi1 & H1).
    destruct (IH _ _ Hi1) as (sub2 & Hi2 & H2).
    exists sub2. split; [done|].
    destruct H1 as (?&?&?&?&?&?), H2 as (?&?&?&?&?&?).
    unfold same_submission_data. split_and!; congruence.
Qed.

(** ** One record per person, one role per token *)

Lemma same_name_sym firstName lastName f l :
  same_name firstName lastName f l → same_name f l firstName lastName.
Proof. intros [? ?]. by split. Qed.

Lemma users_ok_signin uuid firstName lastName st :
  uuid ≠ "" → Forall (λ u, u_id u ≠ uuid) (users st) →
  users_ok st → users_ok (signin uuid firstName lastName st).1.
Proof.
  intros Huuid Hfresh (Hids & Hnonempty & Hnames).
  unfold signin. case_bool_decide; [done|].
  destruct (list_find _ (users st)) as [[k u]|] eqn:Hfind; [done|].
  apply list_find_None in Hfind.
  set (role := if bool_decide _ then Teacher else Student).
  simpl. split_and!; simpl.
  - rewrite fmap_app. apply NoDup_app. split_and!; [done| |apply NoDup_singleton].
    intros x Hx ->%list_elem_of_singleton.
    apply list_elem_of_fmap in Hx as (u & Hu & Hin).
    by apply (proj1 (Forall_forall _ _) Hfresh u Hin).
  - apply Forall_app. split; [done|]. by constructor.
  - intros i j ui uj Hi Hj Hsame.
    apply lookup_app_Some in Hi as [Hi|[Hli Hi]];
      apply lookup_app_Some in Hj as [Hj|[Hlj Hj]].
    + by apply (Hnames i j ui uj).
    + apply list_lookup_singleton_Some in Hj as [_ <-]. simpl in Hsame.
      apply same_name_sym in Hsame.
      destruct (Forall_lookup_1 _ _ _ _ Hfind Hi Hsame).
    + apply list_lookup_singleton_Some in Hi as [_ <-]. simpl in Hsame.
      destruct (Forall_lookup_1 _ _ _ _ Hfind Hj Hsame).
    + apply list_lookup_singleton_Some in Hi as [Hi _].
      apply list_lookup_singleton_Some in Hj as [Hj _]. lia.
Qed.

Lemma users_ok_handle st r : uuid_fresh st r → users_ok st → users_ok (handle st r).
Proof.
  intros Hfresh Hok.
  destruct r as [uuid f l|now token e|at_ token answers|token name text v]; simpl.
  - destruct Hfresh. by apply users_ok_signin.
  - unfold session_start. by repeat case_match.
  - unfold submit. by repeat case_match.
  - unfold mark_open_question. by repeat case_match.
Qed.

Lemma reachable_users_ok st : reachable st → users_ok st.
Proof.
  induction 1 as [ts qs|st r _ IH Hfresh].
  - split_and!; simpl; [apply NoDup_nil_2|constructor|].
    intros i j ui uj Hi. by rewrite lookup_nil in Hi.
  - by apply users_ok_handle.
Qed.

Lemma find_user_elem token r us u :
  NoDup (u_id <$> us) → u ∈ us → u_id u = token →
  find_user token r us = (if decide (u_role u = r) then find_user token r us else None) ∧
  (u_role u = r → is_Some (find_user token r us)).
Proof.
  intros Hids Hu Hid. split.
  - case_decide as Hr; [done|].
    apply list_find_None, Forall_forall. intros u' Hu' [Hid' Hr'].
    apply list_elem_of_lookup in Hu as [i Hi]. apply list_elem_of_lookup in Hu' as [j Hj].
    assert (i = j) as ->.
    { apply (NoDup_lookup _ i j token Hids); rewrite list_lookup_fmap.
      - by rewrite Hi; simpl; rewrite Hid.
      - by rewrite Hj; simpl; rewrite Hid'. }
    congruence.
  - intros Hr. by apply (list_find_elem_of _ us u).
Qed.

(** X4: In every reachable store no two user records describe the same person
    (names compared after lower-casing) or carry the same token, and no
    token is empty: sign-in looks the person up before it inserts. *)
Theorem one_record_per_person (st : Store) :
  reachable st →
  NoDup (u_id <$> users st) ∧
  Forall (λ u, u_id u ≠ "") (users st) ∧
  ∀ (i j : nat) ui uj,
    users st !! i = Some ui → users st !! j = Some uj →
    toLowerCase (u_firstName ui) = toLowerCase (u_firstName uj) →
    toLowerCase (u_lastName ui) = toLowerCase (u_lastName uj) →
    i = j.
Proof.
  intros (Hids & Hnonempty & Hnames)%reachable_users_ok. split_and!; [done..|].
  intros i j ui uj Hi Hj Hf Hl. apply (Hnames i j ui uj Hi Hj). by split.
Qed.

(** X5: A token has one role.  In every reachable store the token of a student
    is refused with 403 by every teacher endpoint (session start, teacher
    results, open questions, marking), and the token of a teacher is refused
    with 403 by the student endpoints (submit, results); the store is left
    as it is. *)
Theorem tokens_have_one_role (st : Store) (u : User) :
  reachable st → u ∈ users st →
  (u_role u = Student →
     (∀ now e, session_start now (u_id u) (Some e) st
                 = (st, Fail 403 "Only teacher can start quiz")) ∧
     teacher_results (u_id u) st = Fail 403 "Invalid teacher token." ∧
     teacher_open_questions (u_id u) st = Fail 403 "Invalid teacher token." ∧
     (∀ studentName questionText v,
        studentName ≠ "" → questionText ≠ "" →
        mark_open_question (u_id u) studentName questionText (Some v) st
          = (st, Fail 403 "Invalid teacher token."))) ∧
  (u_role u = Teacher →
     (∀ submittedAt answers,
        submit submittedAt (u_id u) (Some answers) st
          = (st, Fail 403 "Invalid student token.")) ∧
     results (u_id u) st = Fail 403 "Invalid student token.").
Proof.
  intros (Hids & Hnonempty & _)%reachable_users_ok Hu.
  pose proof (proj1 (Forall_forall _ _) Hnonempty u Hu) as Hid.
  split; intros Hrole.
  - destruct (find_user_elem (u_id u) Teacher (users st) u Hids Hu eq_refl) as [Hnone _].
    rewrite decide_False in Hnone by congruence.
    split_and!.
    + intros now e. unfold session_start.
      by rewrite bool_decide_eq_false_2, Hnone.
    + unfold teacher_results. by rewrite bool_decide_eq_false_2, Hnone.
    + unfold teacher_open_questions. by rewrite bool_decide_eq_false_2, Hnone.
    + intros studentName questionText v Hn Hq. unfold mark_open_question.
      rewrite bool_decide_eq_false_2 by (intros [?|[?|?]]; done).
      by rewrite Hnone.
  - destruct (find_user_elem (u_id u) Student (users st) u Hids Hu eq_refl) as [Hnone _].
    rewrite decide_False in Hnone by congruence.
    split.
    + intros submittedAt answers. unfold submit.
      by rewrite bool_decide_eq_false_2, Hnone.
    + unfold results. by rewrite bool_decide_eq_false_2, Hnone.
Qed.

(** ** Sessions and the clock *)



Lemma get_questions_Json now st body :
  get_questions now st = Json body →
  ∃ s, last (sessions st) = Some s ∧
       ses_startTime s ≤ now ≤ ses_endTime s ∧
       remainingTimeMs body = ses_endTime s - now ∧
       0 ≤ remainingTimeMs body ≤ ses_endTime s - ses_startTime s.
Proof.
  rewrite get_questions_gate. unfold gate.
  destruct (last (sessions st)) as [s|]; [|discriminate].
  destruct (Z.ltb_spec (ses_endTime s) now); [discriminate|].
  destruct (Z.ltb_spec now (ses_startTime s)); [discriminate|].
  intros [= <-]. exists s. simpl. split_and!; [done|lia..].
Qed.

(** X7: When GET /questions succeeds, the instant lies within the latest
    session, and the remaining time it reports is never negative and never
    more than the length of that session. *)
Theorem remaining_time_is_within_the_session (now : Z) (st : Store) (body : QuestionsBody) :
  get_questions now st = Json body →
  ∃ s, last (sessions st) = Some s ∧
       ses_startTime s ≤ now ≤ ses_endTime s ∧
       remainingTimeMs body = ses_endTime s - now ∧
       0 ≤ remainingTimeMs body ≤ ses_endTime s - ses_startTime s.
Proof.
  rewrite get_questions_gate. unfold gate.
  destruct (last (sessions st)) as [s|]; [|discriminate].
  destruct (Z.ltb_spec (ses_endTime s) now); [discriminate|].
  destruct (Z.ltb_spec now (ses_startTime s)); [discriminate|].
  intros [= <-]. exists s. simpl. split_and!; [done|lia..].
Qed.

(** X8: As long as no session is started: a quiz that has ended stays ended at
    every later instant, and between two instants at which the quiz is open
    the remaining time drops by exactly the time that passed. *)
Theorem gate_as_time_passes (now now' : Z) (ss : list Session) :
  now ≤ now' →
  (gate now ss = Ended → gate now' ss = Ended) ∧
  (∀ r r', gate now ss = Json r → gate now' ss = Json r' → r' = r - (now' - now)).
Proof.
  intros Hle. unfold gate. destruct (last ss) as [s|]; [|by split].
  destruct (Z.ltb_spec (ses_endTime s) now), (Z.ltb_spec (ses_endTime s) now'),
           (Z.ltb_spec now (ses_startTime s)), (Z.ltb_spec now' (ses_startTime s));
    split; intros; simplify_eq; try done; try lia.
Qed.

(** X10: The status probe of [server.js] and the gate agree: GET
    /session/status reports testStarted = true exactly when the gate of GET
    /questions lets a request through at that instant, and then with the
    same remaining time. *)
Theorem status_probe_agrees_with_the_gate (now : Z) (st : Store) :
  ServerJs.testStarted (ServerJs.session_status now st) = true
  ↔ gate now (sessions st)
    = Json (ServerJs.status_remainingTimeMs (ServerJs.session_status now st)).
Proof.
  unfold ServerJs.session_status, gate.
  destruct (last (sessions st)) as [s|]; [|done].
  destruct (Z.leb_spec (ses_startTime s) now), (Z.leb_spec now (ses_endTime s)),
           (Z.ltb_spec (ses_endTime s) now), (Z.ltb_spec now (ses_startTime s));
    simpl; split; intros; try done; try lia.
Qed.

(** *** Sessions of [server.js] *)

Lemma ServerJs_handle_one_hour st r :
  Forall one_hour (sessions st) → Forall one_hour (sessions (ServerJs.handle st r)).
Proof.
  intros Hst. destruct r as [uuid f l|now token|at_ token answers]; simpl.
  - unfold signin. by repeat case_match.
  - unfold ServerJs.session_start. repeat case_match; simpl; try done.
    apply Forall_app. split; [done|]. constructor; [|done].
    unfold one_hour. simpl. lia.
  - unfold ServerJs.submit. by repeat case_match.
Qed.

Lemma ServerJs_run_one_hour rs : ∀ st,
  Forall one_hour (sessions st) → Forall one_hour (sessions (ServerJs.run st rs)).
Proof.
  induction rs as [|r rs IH]; intros st Hst; simpl; [done|].
  by apply IH, ServerJs_handle_one_hour.
Qed.

(** X9: In [server.js] every session lasts exactly one hour, so the end never
    precedes the start: on every store that its requests build, the order in
    which the gate tests "ended" and "not started" makes no difference, and
    the remaining time that GET /questions reports is at most one hour. *)
Theorem ServerJs_sessions_last_one_hour (ts : list TeacherRec) (qs : list jsobj)
    (rs : list ServerJs.Request) (now : Z) :
  let st := ServerJs.run (initial ts qs) rs in
  Forall (λ s, ses_endTime s = ses_startTime s + 3600000) (sessions st) ∧
  gate now (sessions st) = gate_spec now (sessions st) ∧
  ∀ body, get_questions now st = Json body → 0 ≤ remainingTimeMs body ≤ 3600000.
Proof.
  intros st.
  assert (Forall one_hour (sessions st)) as Hhour.
  { apply ServerJs_run_one_hour. constructor. }
  split; [done|].
  assert (∀ s, last (sessions st) = Some s → one_hour s) as Hlast.
  { intros s Hs. apply last_Some_elem_of in Hs.
    by apply (proj1 (Forall_forall _ _) Hhour). }
  split.
  - unfold gate, gate_spec. destruct (last (sessions st)) as [s|] eqn:Hs; [|done].
    specialize (Hlast s eq_refl). unfold one_hour in Hlast.
    destruct (Z.ltb_spec (ses_endTime s) now), (Z.ltb_spec now (ses_startTime s));
      try done. lia.
  - intros body (s & Hs & Hnow & Hrem & Hbound)%get_questions_Json.
    specialize (Hlast s Hs). unfold one_hour in Hlast. lia.
Qed.



(** ** Submitting, and reading the results back *)

Lemma submit_Json submittedAt token answers st st1 body :
  submit submittedAt token answers st = (st1, Json body) →
  ∃ a i user g,
    answers = Some a ∧ token ≠ "" ∧
    find_user token Student (users st) = Some (i, user) ∧
    list_find (λ sub, sub_token sub = token) (submissions st) = None ∧
    grade_submission (questions st) a = Some g ∧
    st1 = set_submissions st
            (submissions st ++
               [mkSubmission token (u_firstName user +:+ " " +:+ u_lastName user) a
                  (Some (stringify_obj (g_openEndedAnswers g))) (Some ∅) (g_score g)
                  (g_totalMCQs g) submittedAt]) ∧
    body = mkSubmitBody (g_score g) (g_totalMCQs g).
Proof.
  unfold submit. intros H.
  destruct answers as [a|]; [|discriminate].
  case_bool_decide as Ht; [discriminate|].
  destruct (find_user token Student (users st)) as [[i user]|] eqn:Hu; [|discriminate].
  destruct (list_find _ (submissions st)) as [?|] eqn:Hsub; [discriminate|].
  destruct (grade_submission (questions st) a) as [g|] eqn:Hg; [|discriminate].
  injection H as <- <-. by exists a, i, user, g.
Qed.

(** One pass of the loop body, whatever the types of the answers.  While
    the map of open-ended answers has no own property ["__proto__"], no
    pass gives it one. *)
Lemma grade_question_facts answers acc q acc' :
  grade_question answers acc q = Some acc' →
  g_totalMCQs acc' = g_totalMCQs acc + (if decide (is_mcq q) then 1 else 0) ∧
  g_score acc ≤ g_score acc' ≤ g_score acc + (if decide (is_mcq q) then 1 else 0) ∧
  (g_openEndedAnswers acc !! "__proto__" = None →
   ∀ k, g_openEndedAnswers acc' !! k
        = if decide (k ≠ "__proto__" ∧ is_open q ∧ prop_key (q !! "id") = k)
          then Some (or_default (js_get answers k) (JStr "No answer"))
          else g_openEndedAnswers acc !! k).
Proof.
  unfold grade_question. intros H.
  destruct (decide (is_mcq q)) as [Hmcq|Hmcq].
  - rewrite Hmcq in H.
    assert (g_totalMCQs acc' = g_totalMCQs acc + 1 ∧
            g_score acc ≤ g_score acc' ≤ g_score acc + 1 ∧
            g_openEndedAnswers acc' = g_openEndedAnswers acc) as (Ht & Hs & Ho).
    { repeat case_match; simplify_option_eq; simpl; split_and!; done || lia. }
    split; [done|]. split; [lia|].
    intros _ k. rewrite Ho. rewrite decide_False; [done|].
    intros (_ & Hopen & _). by apply is_open_not_mcq in Hopen.
  - rewrite (not_true_is_false _ Hmcq) in H.
    destruct (decide (is_open q)) as [Hopen|Hopen].
    + rewrite Hopen in H. injection H as <-. simpl. split; [lia|]. split; [lia|].
      intros Hproto k.
      destruct (decide (prop_key (q !! "id") = k)) as [<-|Hk].
      * destruct (decide (prop_key (q !! "id") = "__proto__")) as [Heq|Hne].
        -- rewrite decide_False by tauto. rewrite Heq.
           unfold js_set. by rewrite bool_decide_eq_true_2.
        -- rewrite decide_True by done.
           rewrite js_set_plain by done. apply lookup_insert_eq.
      * rewrite js_set_other by done. rewrite decide_False; [done|tauto].
    + rewrite (not_true_is_false _ Hopen) in H. injection H as <-.
      split; [lia|]. split; [lia|]. intros _ k. rewrite decide_False; [done|tauto].
Qed.

Lemma grade_loop_facts answers qs : ∀ acc g,
  grade_loop answers acc qs = Some g →
  g_totalMCQs g = g_totalMCQs acc + Z.of_nat (length (filter is_mcq qs)) ∧
  g_score acc ≤ g_score g ≤ g_score acc + Z.of_nat (length (filter is_mcq qs)) ∧
  (g_openEndedAnswers acc !! "__proto__" = None →
   ∀ k, g_openEndedAnswers g !! k
        = if decide (k ≠ "__proto__" ∧
                     Exists (λ q, is_open q ∧ prop_key (q !! "id") = k) qs)
          then Some (or_default (js_get answers k) (JStr "No answer"))
          else g_openEndedAnswers acc !! k).
Proof.
  induction qs as [|q qs IH]; intros acc g H; simpl in H.
  - injection H as <-. simpl. split; [lia|]. split; [lia|].
    intros _ k. rewrite decide_False; [done|]. intros [_ Hex]. inversion Hex.
  - destruct (grade_question answers acc q) as [acc'|] eqn:Hq; [|discriminate].
    apply grade_question_facts in Hq as (Ht & Hs & Ho).
    apply IH in H as (Ht' & Hs' & Ho').
    rewrite length_filter_cons. split; [lia|]. split; [lia|].
    intros Hproto k.
    assert (g_openEndedAnswers acc' !! "__proto__" = None) as Hproto'.
    { rewrite Ho by done. rewrite decide_False; [done|]. by intros [? _]. }
    rewrite Ho' by done. rewrite Ho by done.
    destruct (decide (k ≠ "__proto__" ∧ Exists _ qs)) as [[Hk Hex]|Hex].
    + rewrite decide_True; [done|]. split; [done|]. by apply Exists_cons_tl.
    + destruct (decide (k ≠ "__proto__" ∧ is_open q ∧ prop_key (q !! "id") = k))
        as [[Hk Hhd]|Hhd].
      * rewrite decide_True; [done|]. split; [done|]. by apply Exists_cons_hd.
      * rewrite decide_False; [done|]. intros [Hk [?|?]%Exists_cons]; tauto.
Qed.







(** X11: The score that POST /submit reports lies between 0 and totalMCQs, and
    totalMCQs is the number of multiple-choice questions of the quiz -- for
    every accepted submission, whatever the answers are. *)
Theorem auto_grade_is_bounded (submittedAt token : string) (answers : option jsobj)
    (st st1 : Store) (body : SubmitBody) :
  submit submittedAt token answers st = (st1, Json body) →
  0 ≤ sb_score body ≤ sb_totalMCQs body ∧
  sb_totalMCQs body = Z.of_nat (length (filter is_mcq (questions st))) ∧
  sb_totalMCQs body ≤ Z.of_nat (length (questions st)).
Proof.
  intros (a & i & user & g & _ & _ & _ & _ & Hg & _ & ->)%submit_Json.
  apply grade_loop_facts in Hg as (Ht & Hs & _). simpl in *.
  pose proof (length_filter is_mcq (questions st)). lia.
Qed.





(** ** Neither variant of POST /submit looks at the session *)

(** X14: POST /submit gives the same answer and writes the same submission
    whatever the sessions are -- with no session started and after the end
    of the quiz as well; the sessions themselves are left alone. *)
Theorem submit_ignores_the_sessions (submittedAt token : string) (answers : option jsobj)
    (st : Store) (ss : list Session) :
  submit submittedAt token answers (set_sessions st ss)
    = (set_sessions (submit submittedAt token answers st).1 ss,
       (submit submittedAt token answers st).2) ∧
  ServerJs.submit submittedAt token answers (set_sessions st ss)
    = (set_sessions (ServerJs.submit submittedAt token answers st).1 ss,
       (ServerJs.submit submittedAt token answers st).2).
Proof.
  split.
  - unfold submit. simpl. repeat case_match; done.
  - unfold ServerJs.submit. simpl. repeat case_match; done.
Qed.

(** ** The two variants grade alike *)

Lemma ServerJs_grade_submission qs answers :
  ServerJs.grade_submission qs answers
    = (λ g, (g_score g, g_totalMCQs g)) <$> grade_submission qs answers.
Proof. apply (ServerJs_grade_loop answers qs (mkGrading 0 0 ∅)). Qed.

(** X15: On the same store and request the two variants of POST /submit send the
    same response, and when they accept they append the same submission up to
    the two fields that only the extended variant writes, openEndedAnswers
    and openAnswerGrades. *)
Theorem variants_agree_on_submit (submittedAt token : string) (answers : option jsobj)
    (st : Store) :
  (ServerJs.submit submittedAt token answers st).2 = (submit submittedAt token answers st).2 ∧
  ∀ st1 body,
    submit submittedAt token answers st = (st1, Json body) →
    ∃ sub,
      submissions st1 = submissions st ++ [sub] ∧
      (ServerJs.submit submittedAt token answers st).1
        = set_submissions st
            (submissions st ++
               [mkSubmission (sub_token sub) (sub_studentName sub) (sub_answers sub)
                  None None (sub_score sub) (sub_totalMCQs sub) (sub_submittedAt sub)]).
Proof.
  split.
  - unfold ServerJs.submit, submit.
    destruct answers as [a|]; [|done].
    rewrite ServerJs_grade_submission.
    repeat case_match; simplify_option_eq; done.
  - intros st1 body (a & i & user & g & -> & Ht & Hu & Hnone & Hg & -> & ->)%submit_Json.
    eexists. split; [done|].
    unfold ServerJs.submit.
    rewrite bool_decide_eq_false_2, Hu, Hnone, ServerJs_grade_submission, Hg by done.
    done.
Qed.

(** ** GET /submission/check *)

Lemma ServerJs_handle_submissions st r :
  submissions st `prefix_of` submissions (ServerJs.handle st r).
Proof.
  destruct r as [uuid f l|now token|at_ token answers]; simpl.
  - unfold signin. by repeat case_match.
  - unfold ServerJs.session_start. by repeat case_match.
  - unfold ServerJs.submit. repeat case_match; simpl; try done. by apply prefix_app_r.
Qed.

Lemma ServerJs_run_submissions rs : ∀ st,
  submissions st `prefix_of` submissions (ServerJs.run st rs).
Proof.
  induction rs as [|r rs IH]; intros st; simpl; [done|].
  etrans; [apply ServerJs_handle_submissions|apply IH].
Qed.

(** X16: GET /submission/check tells what POST /submit will do with a student's
    token: when it answers true, a submit is refused as a duplicate; when it
    answers false, a submit is not refused as a duplicate; and once a submit
    has been accepted it answers true after any further requests.  (It does
    not look at the users: an unknown token gets false, not 403.) *)
Theorem submission_check_foretells_submit (token : string) (st : Store) :
  token ≠ "" →
  (ServerJs.submission_check token st = Json true →
     ∀ submittedAt a, is_Some (find_user token Student (users st)) →
       ServerJs.submit submittedAt token (Some a) st = (st, DuplicateSubmission)) ∧
  (ServerJs.submission_check token st = Json false →
     ∀ submittedAt a, (ServerJs.submit submittedAt token (Some a) st).2 ≠ DuplicateSubmission) ∧
  (∀ submittedAt a st1 body rs,
     ServerJs.submit submittedAt token (Some a) st = (st1, Json body) →
     ServerJs.submission_check token st = Json false ∧
     ServerJs.submission_check token (ServerJs.run st1 rs) = Json true).
Proof.
  intros Ht. unfold ServerJs.submission_check.
  rewrite !bool_decide_eq_false_2 by done.
  split_and!.
  - intros [= Hsome%bool_decide_eq_true] submittedAt a [[i u] Hu].
    unfold ServerJs.submit. rewrite bool_decide_eq_false_2, Hu by done.
    by destruct Hsome as [[j sub] ->].
  - intros [= Hnone%bool_decide_eq_false] submittedAt a.
    unfold ServerJs.submit. rewrite bool_decide_eq_false_2 by done.
    destruct (list_find _ (submissions st)) as [?|] eqn:Hfind.
    { destruct Hnone. by eexists. }
    repeat case_match; simpl; discriminate.
  - intros submittedAt a st1 body rs H.
    unfold ServerJs.submit in H. rewrite bool_decide_eq_false_2 in H by done.
    destruct (find_user token Student (users st)) as [[i u]|]; [|discriminate].
    destruct (list_find _ (submissions st)) as [?|] eqn:Hnone; [discriminate|].
    destruct (ServerJs.grade_submission (questions st) a) as [[score total]|];
      [|discriminate].
    injection H as <- _. split.
    + rewrite bool_decide_eq_false_2; [done|]. by intros [? ?].
    + rewrite bool_decide_eq_true_2; [done|].
      destruct (ServerJs_run_submissions rs
                  (set_submissions st (submissions st ++
                     [mkSubmission token (u_firstName u +:+ " " +:+ u_lastName u) a
                        None None score total submittedAt]))) as [new ->].
      simpl. eexists. apply list_find_app_l.
      rewrite list_find_app_r by done. simpl. by rewrite decide_True.
Qed.

(** ** Marking, as the teacher sees it *)

Lemma mark_Json_eq token studentName questionText isCorrect st st1 r :
  mark_open_question token studentName questionText isCorrect st = (st1, Json r) →
  ∃ v (i : nat) sub,
    isCorrect = Some v ∧ token ≠ "" ∧
    is_Some (find_user token Teacher (users st)) ∧
    list_find (λ sub, sub_studentName sub = studentName) (submissions st) = Some (i, sub) ∧
    submissions st !! i = Some sub ∧
    st1 = set_submissions st (<[i := regrade questionText v sub]> (submissions st)) ∧
    r = mkMarkBody (sub_score (regrade questionText v sub))
          (js_get (default ∅ (sub_openAnswerGrades sub)) questionText) v
          (score_change (js_get (default ∅ (sub_openAnswerGrades sub)) questionText) v).
Proof.
  intros H. apply mark_Json in H as H'.
  destruct H' as (v & i & sub & -> & Ht & Hn & Hq & Hu & Hsub & Hquestion).
  rewrite (mark_succeeds _ _ _ v st i sub) in H by done.
  injection H as <- <-. exists v, i, sub. split_and!; try done.
  by apply list_find_Some in Hsub as (? & _).
Qed.

(** X17: A successful mark changes one submission and nothing else: teachers,
    users, sessions and questions are as before, the number of submissions
    is the same, every other submission is untouched, and in GET
    /teacher/results exactly the row of that submission changes -- its
    correctCount becomes the updatedScore of the response, its student
    name and totalQuestions stay. *)
Theorem mark_changes_one_row (token studentName questionText : string)
    (isCorrect : option jsval) (st st1 : Store) (r : MarkBody) :
  mark_open_question token studentName questionText isCorrect st = (st1, Json r) →
  teachers st1 = teachers st ∧ users st1 = users st ∧
  sessions st1 = sessions st ∧ questions st1 = questions st ∧
  ∃ (i : nat) sub rows,
    submissions st !! i = Some sub ∧
    sub_studentName sub = studentName ∧
    length (submissions st1) = length (submissions st) ∧
    (∀ j : nat, j ≠ i → submissions st1 !! j = submissions st !! j) ∧
    teacher_results token st = Json rows ∧
    teacher_results token st1
      = Json (<[i := mkResultRow studentName (updatedScore r) (sub_totalMCQs sub)]> rows).
Proof.
  intros (v & i & sub & -> & Ht & [u Hu] & Hfind & Hi & -> & ->)%mark_Json_eq.
  split_and!; [done..|].
  apply list_find_Some in Hfind as (_ & Hname & _).
  exists i, sub. eexists. split_and!; [done|done|..].
  - simpl. apply length_insert.
  - intros j Hj. simpl. by apply list_lookup_insert_ne.
  - unfold teacher_results. rewrite bool_decide_eq_false_2, Hu by done. reflexivity.
  - unfold teacher_results. simpl. rewrite bool_decide_eq_false_2, Hu by done.
    rewrite list_fmap_insert. simpl. by rewrite Hname.
Qed.

(** X18: Only open-ended questions can be marked: when no open-ended question
    has the given text -- the text of a multiple-choice question, say -- a
    teacher's request for a stored student is answered with 404 "Question
    not found." and nothing is written. *)
Theorem only_open_questions_can_be_marked (token studentName questionText : string)
    (v : jsval) (st : Store) :
  token ≠ "" → studentName ≠ "" → questionText ≠ "" →
  is_Some (find_user token Teacher (users st)) →
  Exists (λ sub, sub_studentName sub = studentName) (submissions st) →
  Forall (λ q : jsobj, strict_eq_str (q !! "text") questionText = true → ¬ is_open q)
         (questions st) →
  mark_open_question token studentName questionText (Some v) st
    = (st, Fail 404 "Question not found.").
Proof.
  intros Ht Hn Hq [u Hu] Hsub Hnone.
  unfold mark_open_question.
  rewrite bool_decide_eq_false_2 by (intros [?|[?|?]]; done).
  rewrite Hu.
  apply Exists_exists in Hsub as (sub & Hin & Hname).
  destruct (list_find_elem_of (λ s, sub_studentName s = studentName) _ sub Hin Hname)
    as [[i sub'] ->].
  simpl.
  destruct (list_find _ (filter _ (questions st))) as [[k q]|] eqn:Hfind; [|done].
  apply list_find_Some in Hfind as (Hk%list_elem_of_lookup_2 & Htext & _).
  apply list_elem_of_filter in Hk as [Hopen Hin'].
  destruct (proj1 (Forall_forall _ _) Hnone q Hin' Htext Hopen).
Qed.

(** After a successful mark the same student is found at the same place. *)
Lemma mark_keeps_the_target studentName questionText v subs (i : nat) sub :
  list_find (λ sub, sub_studentName sub = studentName) subs = Some (i, sub) →
  list_find (λ sub, sub_studentName sub = studentName)
            (<[i := regrade questionText v sub]> subs)
    = Some (i, regrade questionText v sub).
Proof.
  intros (Hi & Hname & Hfirst)%list_find_Some.
  apply list_find_insert_Some. right; left.
  split_and!; eauto using lookup_lt_Some.
Qed.

(** X19: The scenario of an answer that is marked correct, marked correct once
    more and then marked incorrect: for a submission with a score of at
    least 0 on which the handler reads no grade for the question (none is
    stored under its text, and the text is not the name of a member of
    Object.prototype), the three calls report the score changes +1, 0 and
    -1, and the stored score ends where it began. *)
Theorem correct_correct_incorrect (token studentName questionText : string) (st : Store)
    (i : nat) (sub : Submission) :
  token ≠ "" → studentName ≠ "" → questionText ≠ "" →
  is_Some (find_user token Teacher (users st)) →
  list_find (λ sub, sub_studentName sub = studentName) (submissions st) = Some (i, sub) →
  Exists (is_open_question questionText) (questions st) →
  js_get (default ∅ (sub_openAnswerGrades sub)) questionText = None →
  0 ≤ sub_score sub →
  let mark b st := mark_open_question token studentName questionText (Some (JBool b)) st in
  ∃ st1 st2 st3 r1 r2 r3 sub3,
    mark true st = (st1, Json r1) ∧ mark true st1 = (st2, Json r2) ∧
    mark false st2 = (st3, Json r3) ∧
    scoreChange r1 = 1 ∧ scoreChange r2 = 0 ∧ scoreChange r3 = -1 ∧
    updatedScore r1 = sub_score sub + 1 ∧ updatedScore r2 = sub_score sub + 1 ∧
    updatedScore r3 = sub_score sub ∧
    submissions st3 !! i = Some sub3 ∧
    sub_score sub3 = sub_score sub ∧
    sub_openAnswerGrades sub3 ≫= (λ m, m !! questionText) = Some (JBool false).
Proof.
  intros Ht Hn Hq Hu Hfind Hquestion Hprev Hscore mark.
  set (sub1 := regrade questionText (JBool true) sub).
  set (sub3 := regrade questionText (JBool false) sub1).
  set (st1 := set_submissions st (<[i := sub1]> (submissions st))).
  set (st3 := set_submissions st1 (<[i := sub3]> (submissions st1))).
  assert (list_find (λ sub, sub_studentName sub = studentName) (submissions st1)
          = Some (i, sub1)) as Hfind1 by by apply mark_keeps_the_target.
  assert (sub_score sub1 = sub_score sub + 1) as Hscore1.
  { unfold sub1. rewrite regrade_score, Hprev.
    change (score_change None (JBool true)) with 1. lia. }
  destruct (js_set_after_bool _ _ None (JBool true) Hprev) as [_ Hset].
  assert (questionText ≠ "__proto__") as Hproto.
  { apply js_get_None in Hprev as [_ Hk]. intros ->. apply Hk.
    by vm_compute; repeat constructor. }
  assert (js_get (default ∅ (sub_openAnswerGrades sub1)) questionText = Some (JBool true))
    as Hgrade1 by (simpl; rewrite Hset; apply js_get_own, lookup_insert_eq).
  assert (sub_score sub3 = sub_score sub) as Hscore3.
  { unfold sub3. rewrite regrade_score, Hgrade1, Hscore1.
    change (score_change (Some (JBool true)) (JBool false)) with (-1). lia. }
  exists st1, st1, st3. eexists _, _, _. exists sub3.
  split_and!.
  - unfold mark. by apply mark_succeeds.
  - unfold mark. rewrite (mark_succeeds _ _ _ _ st1 i sub1) by done.
    assert (regrade questionText (JBool true) sub1 = sub1) as -> by apply regrade_regrade.
    assert (set_submissions st1 (<[i := sub1]> (submissions st1)) = st1) as ->.
    { unfold st1, set_submissions. simpl. by rewrite list_insert_insert_eq. }
    reflexivity.
  - unfold mark. by rewrite (mark_succeeds _ _ _ _ st1 i sub1) by done.
  - cbn [scoreChange]. by rewrite Hprev.
  - cbn [scoreChange]. by rewrite Hgrade1.
  - cbn [scoreChange]. by rewrite Hgrade1.
  - exact Hscore1.
  - exact Hscore1.
  - exact Hscore3.
  - simpl. apply list_lookup_insert_eq. rewrite length_insert.
    apply list_find_Some in Hfind as (Hi & _). eauto using lookup_lt_Some.
  - exact Hscore3.
  - simpl. rewrite (js_set_plain _ _ (JBool false)) by done. apply lookup_insert_eq.
Qed.

(** ** GET /teacher/open-questions *)

Lemma foldl_js_set_lookup {A} (key : A → string) (val : A → jsval) (l : list A) (x : A) :
  x ∈ l → key x ≠ "__proto__" → (∀ y, y ∈ l → key y = key x → val y = val x) →
  foldl (λ (m : jsobj) q, js_set m (key q) (val q)) ∅ l !! key x = Some (val x).
Proof.
  induction l as [|z l IH] using rev_ind; intros Hx Hproto Hsame.
  - by apply elem_of_nil in Hx.
  - rewrite foldl_snoc.
    destruct (decide (key z = key x)) as [Hz|Hz].
    + rewrite Hz, js_set_plain, lookup_insert_eq by done. f_equal. apply Hsame; [|done].
      apply elem_of_app. right. apply list_elem_of_here.
    + rewrite js_set_other by done. apply IH; [|done|].
      * apply elem_of_app in Hx as [Hx|Hx%list_elem_of_singleton]; [done|congruence].
      * intros y Hy. apply Hsame, elem_of_app. by left.
Qed.


(** X21: A submission that [server.js] wrote has no openEndedAnswers, and the
    extended GET /teacher/open-questions reads nothing else: for such a
    submission it shows "No answer provided" under every open-ended
    question, whatever the student answered.  (Under the text "__proto__"
    the view shows nothing at all, so that text is left out.) *)
Theorem extended_view_misses_serverjs_answers (submittedAt token teacher : string)
    (answers : option jsobj) (st st1 : Store) (body : SubmitBody) (q : jsobj) :
  ServerJs.submit submittedAt token answers st = (st1, Json body) →
  teacher ≠ "" → is_Some (find_user teacher Teacher (users st)) →
  q ∈ questions st → is_open q → prop_key (q !! "text") ≠ "__proto__" →
  ∃ rows row,
    teacher_open_questions teacher st1 = Json rows ∧
    last rows = Some row ∧
    ServerJs.or_answers row !! prop_key (q !! "text") = Some (JStr "No answer provided").
Proof.
  intros H Hteacher [u' Hu'] Hq Hopen Htext.
  unfold ServerJs.submit in H.
  destruct answers as [a|]; [|discriminate].
  case_bool_decide; [discriminate|].
  destruct (find_user token Student (users st)) as [[i user]|]; [|discriminate].
  destruct (list_find _ (submissions st)) as [?|]; [discriminate|].
  destruct (ServerJs.grade_submission (questions st) a) as [[score total]|]; [|discriminate].
  injection H as <- _.
  set (oqs := filter (λ q, strict_eq_str (q !! "type") "open-ended" = true) (questions st)).
  assert (q ∈ oqs) as Hqo by by apply list_elem_of_filter.
  eexists _, _. split_and!.
  - unfold teacher_open_questions. simpl. rewrite bool_decide_eq_false_2, Hu' by done.
    fold oqs. rewrite bool_decide_eq_false_2; [reflexivity|].
    intros Hlen. apply nil_length_inv in Hlen. rewrite Hlen in Hqo.
    by apply elem_of_nil in Hqo.
  - rewrite fmap_app. simpl. apply last_snoc.
  - simpl. fold oqs. unfold open_answers. simpl.
    by rewrite (foldl_js_set_lookup (λ q, prop_key (q !! "text"))
                  (λ _, JStr "No answer provided") oqs q Hqo Htext).
Qed.

(** ** The role is decided once *)

(** X22: The first sign-in of a person the store does not know returns the fresh
    uuid as the token and the role teacher exactly when the roster has a
    record with the same names up to letter case; and that role stays: every
    later sign-in of the person returns it, whatever the roster has become in
    the meantime. *)
Theorem role_is_fixed_at_first_signin (uuid firstName lastName : string) (st : Store) :
  firstName ≠ "" → lastName ≠ "" →
  Forall (λ u, ¬ same_name firstName lastName (u_firstName u) (u_lastName u)) (users st) →
  ∃ r,
    signin uuid firstName lastName st
      = (set_users st (users st ++ [mkUser uuid firstName lastName r]),
         Json (mkSigninBody uuid r)) ∧
    (r = Teacher
     ↔ Exists (λ t, same_name firstName lastName (t_firstName t) (t_lastName t))
              (teachers st)) ∧
    ∀ ts' rs uuid' firstName' lastName',
      toLowerCase firstName' = toLowerCase firstName →
      toLowerCase lastName' = toLowerCase lastName →
      let st2 := set_teachers
                   (run (set_users st (users st ++ [mkUser uuid firstName lastName r])) rs)
                   ts' in
      signin uuid' firstName' lastName' st2 = (st2, Json (mkSigninBody uuid r)).
Proof.
  intros Hf Hl Hnew'.
  assert (list_find (λ u, same_name firstName lastName (u_firstName u) (u_lastName u))
            (users st) = None) as Hnew by by apply list_find_None.
  set (isTeacher := bool_decide (Exists (λ t, same_name firstName lastName
                                                (t_firstName t) (t_lastName t)) (teachers st))).
  exists (if isTeacher then Teacher else Student). split_and!.
  - unfold signin. rewrite bool_decide_eq_false_2 by (intros [?|?]; done).
    by rewrite Hnew.
  - unfold isTeacher. case_bool_decide; split; done.
  - intros ts' rs uuid' firstName' lastName' Hf' Hl' st2.
    unfold signin. rewrite bool_decide_eq_false_2.
    2:{ intros [->| ->].
        - apply Hf, toLowerCase_empty. by rewrite <- Hf', toLowerCase_nil.
        - apply Hl, toLowerCase_empty. by rewrite <- Hl', toLowerCase_nil. }
    unfold st2 at 2. simpl.
    destruct (run_users (set_users st (users st ++
                [mkUser uuid firstName lastName (if isTeacher then Teacher else Student)])) rs)
      as [new ->].
    rewrite (list_find_ext _
               (λ u, same_name firstName lastName (u_firstName u) (u_lastName u))).
    2:{ intros x. by apply same_name_casing. }
    simpl.
    rewrite (list_find_app_l _ _ _ (0 + length (users st))%nat
               (mkUser uuid firstName lastName (if isTeacher then Teacher else Student))).
    + done.
    + rewrite list_find_app_r by done. simpl.
      by rewrite decide_True by apply same_name_refl.
Qed.

(** ** Letter case does not matter to the grade *)

Lemma truthy_casing s s' :
  toLowerCase s = toLowerCase s' → truthy (Some (JStr s)) = truthy (Some (JStr s')).
Proof.
  intros Hcase. simpl. f_equal. apply bool_decide_ext.
  split; intros ->; apply toLowerCase_empty;
    [by rewrite <- Hcase, toLowerCase_nil|by rewrite Hcase, toLowerCase_nil].
Qed.

Lemma grade_question_casing (answers : jsobj) k s s' acc acc' q :
  toLowerCase s = toLowerCase s' →
  g_score acc = g_score acc' → g_totalMCQs acc = g_totalMCQs acc' →
  match grade_question (<[k := JStr s]> answers) acc q,
        grade_question (<[k := JStr s']> answers) acc' q with
  | Some g, Some g' => g_score g = g_score g' ∧ g_totalMCQs g = g_totalMCQs g'
  | None, None => True
  | _, _ => False
  end.
Proof.
  intros Hcase Hs Ht. unfold grade_question.
  destruct (strict_eq_str (q !! "type") "multiple-choice").
  - destruct (decide (k = prop_key (q !! "id"))) as [<-|Hk].
    + rewrite !js_get_insert_eq, (truthy_casing s s' Hcase).
      destruct (truthy (Some (JStr s'))); [|simpl; split; lia].
      simpl. rewrite Hcase.
      destruct (call_toLowerCase (q !! "correctAnswer")) as [c|]; [|done].
      simpl. case_bool_decide; simpl; split; lia.
    + rewrite !js_get_insert_ne by done.
      destruct (truthy (js_get answers (prop_key (q !! "id")))); [|simpl; split; lia].
      destruct (call_toLowerCase (js_get answers (prop_key (q !! "id")))) as [a|]; [|done].
      simpl.
      destruct (call_toLowerCase (q !! "correctAnswer")) as [c|]; [|done].
      simpl. case_bool_decide; simpl; split; lia.
  - destruct (strict_eq_str (q !! "type") "open-ended"); simpl; split; lia.
Qed.

Lemma grade_loop_casing (answers : jsobj) k s s' qs : ∀ acc acc',
  toLowerCase s = toLowerCase s' →
  g_score acc = g_score acc' → g_totalMCQs acc = g_totalMCQs acc' →
  (λ g, mkSubmitBody (g_score g) (g_totalMCQs g)) <$> grade_loop (<[k := JStr s]> answers) acc qs
  = (λ g, mkSubmitBody (g_score g) (g_totalMCQs g))
      <$> grade_loop (<[k := JStr s']> answers) acc' qs.
Proof.
  induction qs as [|q qs IH]; intros acc acc' Hcase Hs Ht; simpl.
  - by rewrite Hs, Ht.
  - pose proof (grade_question_casing answers k s s' acc acc' q Hcase Hs Ht) as Hq.
    destruct (grade_question (<[k := JStr s]> answers) acc q) as [g|],
             (grade_question (<[k := JStr s']> answers) acc' q) as [g'|]; try done.
    destruct Hq. by apply IH.
Qed.

(** X23: Changing the letter case of a submitted answer changes nothing in what
    POST /submit answers: the same status, and on success the same score and
    totalMCQs. *)
Theorem submit_ignores_letter_case (submittedAt token k s s' : string) (answers : jsobj)
    (st : Store) :
  toLowerCase s = toLowerCase s' →
  (submit submittedAt token (Some (<[k := JStr s]> answers)) st).2
    = (submit submittedAt token (Some (<[k := JStr s']> answers)) st).2.
Proof.
  intros Hcase. unfold submit.
  case_bool_decide; [done|].
  destruct (find_user token Student (users st)) as [[i user]|]; [|done].
  destruct (list_find _ (submissions st)) as [?|]; [done|].
  pose proof (grade_loop_casing answers k s s' (questions st)
                (mkGrading 0 0 ∅) (mkGrading 0 0 ∅) Hcase eq_refl eq_refl) as Hg.
  unfold grade_submission.
  destruct (grade_loop (<[k := JStr s]> answers) _ _) as [g|],
           (grade_loop (<[k := JStr s']> answers) _ _) as [g'|];
    simpl in *; try done.
  by injection Hg as -> ->.
Qed.

(** ** One submission per token in [server.js] as well *)

Lemma ServerJs_submissions_ok_handle st r :
  submissions_ok st → submissions_ok (ServerJs.handle st r).
Proof.
  intros [Hnodup Hall].
  assert (∀ new, Forall (λ sub, sub_token sub ≠ "" ∧
                   is_Some (find_user (sub_token sub) Student (users st ++ new)))
                 (submissions st)) as Hall'.
  { intros new. eapply Forall_impl; [exact Hall|].
    intros sub [? ?]. eauto using find_user_app. }
  destruct r as [uuid f l|now token|at_ token answers]; simpl.
  - unfold signin. repeat case_match; simpl; try done; (split; [done|apply Hall']).
  - unfold ServerJs.session_start. repeat case_match; done.
  - unfold ServerJs.submit.
    destruct answers as [a|]; [|done].
    case_bool_decide as Ht; [done|].
    destruct (find_user token Student (users st)) as [[i user]|] eqn:Hu; [|done].
    destruct (list_find _ (submissions st)) as [?|] eqn:Hnone; [done|].
    destruct (ServerJs.grade_submission (questions st) a) as [[score total]|]; [|done].
    split; simpl.
    + rewrite fmap_app. apply NoDup_app. split_and!; [done| |apply NoDup_singleton].
      intros t Ht1 Ht2. apply list_elem_of_fmap in Ht1 as (sub & -> & Hsub).
      apply list_elem_of_singleton in Ht2. simpl in Ht2.
      apply list_find_None in Hnone.
      by apply (proj1 (Forall_forall _ _) Hnone sub Hsub).
    + apply Forall_app. split; [done|]. constructor; [|done]. simpl.
      split; [done|]. by rewrite Hu.
Qed.

Lemma ServerJs_run_submissions_ok rs : ∀ st,
  submissions_ok st → submissions_ok (ServerJs.run st rs).
Proof.
  induction rs as [|r rs IH]; intros st Hst; simpl; [done|].
  by apply IH, ServerJs_submissions_ok_handle.
Qed.

(** X25: On every store that the requests of [server.js] build from the initial
    data, a submit with the token of a stored submission is refused with 400
    as a duplicate, whatever the answers, and writes nothing; no token has two
    submissions. *)
Theorem ServerJs_submit_once (ts : list TeacherRec) (qs : list jsobj)
    (rs : list ServerJs.Request) :
  let st := ServerJs.run (initial ts qs) rs in
  (∀ sub submittedAt answers,
     sub ∈ submissions st →
     ServerJs.submit submittedAt (sub_token sub) (Some answers) st
       = (st, Fail 400 "You have already submitted your answers.")) ∧
  NoDup (sub_token <$> submissions st).
Proof.
  intros st.
  assert (submissions_ok st) as Hok.
  { apply ServerJs_run_submissions_ok. split; simpl; [apply NoDup_nil_2|constructor]. }
  split; [|apply Hok].
  intros sub submittedAt answers Hsub. by apply ServerJs_submit_duplicate.
Qed.

(** X24: With boolean verdicts the floor is out of reach, as long as no marked
    question has a text that names a member of Object.prototype: in a store
    built from the initial data by requests whose verdicts are all booleans,
    for such texts, a successful mark of that kind changes the score by
    exactly scoreChange. *)
Theorem floor_is_out_of_reach_for_boolean_verdicts (ts : list TeacherRec) (qs : list jsobj)
    (rs : list Request) (token studentName questionText : string) (b : bool)
    (st1 : Store) (r : MarkBody) :
  Forall boolean_verdict rs →
  questionText ∉ object_prototype_members →
  mark_open_question token studentName questionText (Some (JBool b)) (run (initial ts qs) rs)
    = (st1, Json r) →
  ∃ (i : nat) sub,
    list_find (λ sub, sub_studentName sub = studentName)
              (submissions (run (initial ts qs) rs)) = Some (i, sub) ∧
    updatedScore r = sub_score sub + scoreChange r.
Proof.
  intros Hrs Hplain H.
  assert (Forall graded_by_booleans (submissions (run (initial ts qs) rs))) as Hinv.
  { apply graded_by_booleans_run; [done|]. constructor. }
  apply mark_Json_eq in H as (v & i & sub & [= <-] & _ & _ & Hfind & Hi & _ & ->).
  exists i, sub. split; [done|]. simpl.
  apply regrade_boolean; [done|].
  by apply (Forall_lookup_1 _ _ _ _ Hinv Hi).
Qed.

(** ** A quiz without open-ended questions *)

(** X26: When the quiz has no open-ended question, the extended GET
    /teacher/open-questions answers a teacher with 404, whether or not there
    are submissions, while the one of [server.js] answers with one row per
    submission, each with an empty answers object. *)
Theorem open_questions_view_without_open_questions (teacher : string) (st : Store) :
  teacher ≠ "" → is_Some (find_user teacher Teacher (users st)) →
  Forall (λ q, ¬ is_open q) (questions st) →
  teacher_open_questions teacher st = Fail 404 "No open-ended questions found." ∧
  ServerJs.teacher_open_questions teacher st
    = Json ((λ sub, ServerJs.mkOpenRow (sub_studentName sub) ∅) <$> submissions st).
Proof.
  intros Ht [u Hu] Hnone.
  assert (filter (λ q : jsobj, strict_eq_str (q !! "type") "open-ended" = true) (questions st)
          = []) as Hfilter.
  { induction Hnone as [|q qs Hq _ IH]; [done|]. by rewrite filter_cons_False. }
  split.
  - unfold teacher_open_questions. rewrite bool_decide_eq_false_2, Hu by done.
    simpl. by rewrite Hfilter.
  - unfold ServerJs.teacher_open_questions. rewrite bool_decide_eq_false_2, Hu by done.
    simpl. by rewrite Hfilter.
Qed.

End properties.

(** * The properties on concrete quizzes *)

(** From here on the handlers run with the lower-casing of ASCII text: the
    names, the answers and the question texts of the quizzes below are
    ASCII text, on which it is what the built-in computes. *)
#[local] Existing Instance ascii_lowering.

Example gate_open : gate 7 [mkSession 1 2; mkSession 5 10] = Json 3.
Proof. reflexivity. Qed.

Example prop_key_num : prop_key (Some (JNum 12)) = "12".
Proof. reflexivity. Qed.

Example prop_key_arr : prop_key (Some (JArr [JNum 1; JNull; JStr "a"])) = "1,,a".
Proof. reflexivity. Qed.

Example lower_ex : toLowerCase "Ada LoveLace-9" = "ada lovelace-9".
Proof. reflexivity. Qed.

(** C2, the claim as written fails: a teacher who starts a session at
    instant 10 with the end time 5 leaves a latest session with
    endTime < startTime; at instant 7 both failure conditions hold, the
    spec's order answers NotStarted and the handler answers Ended. *)
Lemma gate_corner_counterexample :
  let st := run (initial [mkTeacher "Ada" "Lovelace"] [])
                [Signin "t1" "Ada" "Lovelace"; SessionStart 10 "t1" (Some 5)] in
  sessions st = [mkSession 10 5] ∧
  gate_spec 7 (sessions st) = NotStarted ∧
  gate 7 (sessions st) = Ended ∧
  get_questions 7 st = Ended ∧
  gate 7 (sessions st) ≠ gate_spec 7 (sessions st).
Proof. vm_compute. repeat split; discriminate. Qed.

Lemma gate_checks_ended_first_witness :
  gate 7 [] = NotStarted ∧
  gate 7 [mkSession 1 2; mkSession 10 5] = Ended ∧
  gate 3 [mkSession 5 9] = NotStarted ∧
  gate 7 [mkSession 5 9] = Json 2 ∧
  gate 7 [mkSession 5 9] = gate_spec 7 [mkSession 5 9].
Proof.
  split; [exact (proj1 (gate_checks_ended_first 7 []) eq_refl)|].
  split; [apply (proj2 (gate_checks_ended_first 7 [mkSession 1 2; mkSession 10 5])
                   (mkSession 10 5) eq_refl); simpl; lia|].
  split; [apply (proj2 (gate_checks_ended_first 3 [mkSession 5 9])
                   (mkSession 5 9) eq_refl); simpl; lia|].
  split; apply (proj2 (gate_checks_ended_first 7 [mkSession 5 9])
                   (mkSession 5 9) eq_refl); simpl; lia.
Defined.

Lemma get_questions_strips_answer_key_witness :
  let mcq : jsobj := {[ "id" := JStr "q1"; "type" := JStr "multiple-choice";
                        "correctAnswer" := JStr "a" ]} in
  let st := mkStore [] [] [mkSession 5 9] [mcq] [] in
  ∃ q', questionsToSend (mkQuestionsBody 2 [strip_answer mcq]) !! 0%nat = Some q' ∧
        q' !! "correctAnswer" = None ∧
        ∀ k, k ≠ "correctAnswer" → q' !! k = mcq !! k.
Proof.
  intros mcq st.
  apply (proj2 (proj2 (get_questions_strips_answer_key 7 st
                         (mkQuestionsBody 2 [strip_answer mcq]) eq_refl)) 0%nat mcq).
  reflexivity.
Defined.

Lemma signin_idempotent_witness :
  let st := initial [mkTeacher "Ada" "Lovelace"] [] in
  ∃ st1 b,
    signin "s1" "Bob" "Smith" st = (st1, Json b) ∧
    st1 = set_users st [mkUser "s1" "Bob" "Smith" (role b)] ∧
    token b = "s1" ∧
    signin "s2" "bOB" "SMITH" (run st1 [Signin "t1" "ada" "lovelace"])
      = (run st1 [Signin "t1" "ada" "lovelace"], Json b).
Proof.
  intros st.
  destruct (signin_idempotent "s1" "Bob" "Smith" st)
    as (st1 & b & H1 & Hfirst & _ & H2); [discriminate..|].
  destruct (Hfirst (Forall_nil_2 _)) as (Hst1 & Htoken & _).
  exists st1, b. split_and!; [exact H1|exact Hst1|exact Htoken|].
  apply H2; reflexivity.
Defined.

(** Reachability of a concrete run from an initial store. *)
Ltac reachable_by_run :=
  apply reachable_run; [apply reachable_initial|];
  simpl; repeat split; try discriminate; repeat constructor; discriminate.

Lemma regrading_idempotent_witness :
  let essay : jsobj := {[ "id" := JStr "q2"; "text" := JStr "Essay";
                          "type" := JStr "open-ended" ]} in
  let st := mkStore [] [mkUser "t1" "Ada" "Lovelace" Teacher] [] [essay]
              [mkSubmission "s1" "Bob Smith" ∅ (Some ∅) (Some ∅) 2 2 "2024-05-01T10:00:00.000Z"] in
  let st1 := (mark_open_question "t1" "Bob Smith" "Essay" (Some (JBool true)) st).1 in
  ∃ r2,
    mark_open_question "t1" "Bob Smith" "Essay" (Some (JBool true)) st1 = (st1, Json r2) ∧
    scoreChange r2 = 0 ∧ updatedScore r2 = 3.
Proof.
  intros essay st st1.
  destruct (regrading_idempotent "t1" "Bob Smith" "Essay" (Some (JBool true)) st st1
              (mkMarkBody 3 None (JBool true) 1)) as (r2 & H1 & H2 & H3 & _).
  - vm_compute. reflexivity.
  - exists r2. split_and!; [exact H1|exact H2|exact H3].
Defined.

(** Under the text "__proto__" no verdict is stored: the second of two
    equal calls reads what the first one read, [Object.prototype]. *)
Example proto_verdict_is_not_stored :
  let essay : jsobj := {[ "id" := JStr "q2"; "text" := JStr "__proto__";
                          "type" := JStr "open-ended" ]} in
  let st := mkStore [] [mkUser "t1" "Ada" "Lovelace" Teacher] [] [essay]
              [mkSubmission "s1" "Bob Smith" ∅ (Some ∅) (Some ∅) 2 2 "2024-05-01T10:00:00.000Z"] in
  let mark := mark_open_question "t1" "Bob Smith" "__proto__" (Some (JBool true)) in
  mark st = (st, Json (mkMarkBody 2 (Some JProto) (JBool true) 0)) ∧
  mark (mark st).1 = (st, Json (mkMarkBody 2 (Some JProto) (JBool true) 0)).
Proof. split; reflexivity. Qed.

Lemma score_floor_witness :
  let essay : jsobj := {[ "id" := JStr "q2"; "text" := JStr "Essay";
                          "type" := JStr "open-ended" ]} in
  let st := mkStore [] [mkUser "t1" "Ada" "Lovelace" Teacher] [] [essay]
              [mkSubmission "s1" "Bob Smith" ∅ (Some ∅) (Some {[ "Essay" := JBool true ]})
                 0 0 "2024-05-01T10:00:00.000Z"] in
  Forall (λ sub, 0 ≤ sub_score sub)
    (submissions (run st [MarkOpenQuestion "t1" "Bob Smith" "Essay" (Some (JBool false));
                          MarkOpenQuestion "t1" "Bob Smith" "Essay" (Some (JBool false))])) ∧
  ∃ i sub sub',
    list_find (λ sub, sub_studentName sub = "Bob Smith") (submissions st) = Some (i, sub) ∧
    submissions (mark_open_question "t1" "Bob Smith" "Essay" (Some (JBool false)) st).1 !! i
      = Some sub' ∧
    sub_score sub' = 0 ∧
    0 = Z.max 0 (sub_score sub + -1).
Proof.
  intros essay st. split.
  - apply (proj1 score_floor). repeat constructor. simpl. lia.
  - apply (proj2 score_floor "t1" "Bob Smith" "Essay" (Some (JBool false)) st _
             (mkMarkBody 0 (Some (JBool true)) (JBool false) (-1))).
    vm_compute. reflexivity.
Defined.

(** C1, the claim as written fails, in two ways.
    (1) The store [st] below is reached through the handlers alone: the
    student submits with no multiple-choice point, the teacher's client
    sends the verdict null and then true, so that the answer is graded true
    while the score is still 0.  Marking it false is the transition
    true -> false, scoreChange is -1 as the table says, but the floor keeps
    the persisted score at 0: it is not changed by scoreChange.
    (2) In the quiz of [st'] the open-ended question has the text
    "constructor".  Nothing is graded yet, but the handler's read
    [openAnswerGrades["constructor"]] finds the function that every object
    inherits, which is not [undefined]: marking the ungraded answer true
    gives scoreChange 0, not the +1 of the table. *)
Lemma score_update_counterexample :
  let essay : jsobj := {[ "id" := JStr "q2"; "text" := JStr "Essay";
                          "type" := JStr "open-ended" ]} in
  let st := run (initial [mkTeacher "Ada" "Lovelace"] [essay])
              [Signin "t1" "Ada" "Lovelace";
               Signin "s1" "Bob" "Smith";
               Submit "2024-05-01T10:00:00.000Z" "s1" (Some ∅);
               MarkOpenQuestion "t1" "Bob Smith" "Essay" (Some JNull);
               MarkOpenQuestion "t1" "Bob Smith" "Essay" (Some (JBool true))] in
  let inherited : jsobj := {[ "id" := JStr "q3"; "text" := JStr "constructor";
                              "type" := JStr "open-ended" ]} in
  let st' := run (initial [mkTeacher "Ada" "Lovelace"] [inherited])
               [Signin "t1" "Ada" "Lovelace";
                Signin "s1" "Bob" "Smith";
                Submit "2024-05-01T10:00:00.000Z" "s1" (Some ∅)] in
  (reachable st ∧
   ∃ sub st1 r sub',
     submissions st = [sub] ∧
     sub_score sub = 0 ∧
     sub_openAnswerGrades sub = Some {[ "Essay" := JBool true ]} ∧
     mark_open_question "t1" "Bob Smith" "Essay" (Some (JBool false)) st = (st1, Json r) ∧
     previousGrade r = Some (JBool true) ∧
     newGrade r = JBool false ∧
     scoreChange r = grade_transition (Some true) false ∧
     scoreChange r = -1 ∧
     submissions st1 = [sub'] ∧
     sub_score sub' = 0 ∧
     updatedScore r = 0 ∧
     sub_score sub' ≠ sub_score sub + scoreChange r) ∧
  (reachable st' ∧
   ∃ sub st1 r,
     submissions st' = [sub] ∧
     sub_openAnswerGrades sub = Some ∅ ∧
     mark_open_question "t1" "Bob Smith" "constructor" (Some (JBool true)) st'
       = (st1, Json r) ∧
     previousGrade r = Some (JFunction "constructor") ∧
     scoreChange r = 0 ∧
     scoreChange r ≠ grade_transition None true).
Proof.
  intros essay st inherited st'. split; split.
  - reachable_by_run.
  - vm_compute. do 4 eexists. repeat split; discriminate.
  - reachable_by_run.
  - vm_compute. do 3 eexists. repeat split; discriminate.
Qed.

Lemma mark_follows_transition_table_witness :
  let essay : jsobj := {[ "id" := JStr "q2"; "text" := JStr "Essay";
                          "type" := JStr "open-ended" ]} in
  let sub := mkSubmission "s1" "Bob Smith" ∅ (Some ∅) (Some {[ "Essay" := JBool true ]})
               3 2 "2024-05-01T10:00:00.000Z" in
  let st := mkStore [] [mkUser "t1" "Ada" "Lovelace" Teacher] [] [essay] [sub] in
  mark_open_question "t1" "Bob Smith" "Essay" (Some (JBool false)) st
    = (set_submissions st
         [mkSubmission "s1" "Bob Smith" ∅ (Some ∅)
            (Some (<[ "Essay" := JBool false ]> {[ "Essay" := JBool true ]}))
            2 2 "2024-05-01T10:00:00.000Z"],
       Json (mkMarkBody 2 (Some (JBool true)) (JBool false) (-1))).
Proof.
  intros essay sub st.
  refine (proj1 (mark_follows_transition_table "t1" "Bob Smith" "Essay" false (Some true)
                   st 0%nat sub _ _ _ _ _ _ _)).
  - discriminate.
  - discriminate.
  - discriminate.
  - eexists. vm_compute. reflexivity.
  - vm_compute. reflexivity.
  - apply Exists_cons_hd. split; vm_compute; reflexivity.
  - vm_compute. reflexivity.
Defined.

Lemma submit_once_witness :
  let mcq : jsobj := {[ "id" := JStr "q1"; "type" := JStr "multiple-choice";
                        "correctAnswer" := JStr "a" ]} in
  let st := run (initial [] [mcq])
              [Signin "s1" "Bob" "Smith";
               Submit "2024-05-01T10:00:00.000Z" "s1" (Some {[ "q1" := JStr "A" ]})] in
  submit "2024-05-01T10:05:00.000Z" "s1" (Some {[ "q1" := JStr "b" ]}) st
    = (st, Fail 400 "You have already submitted your answers.").
Proof.
  intros mcq st.
  refine (proj1 (submit_once st _)
            (mkSubmission "s1" "Bob Smith" {[ "q1" := JStr "A" ]} (Some ∅) (Some ∅) 1 1
               "2024-05-01T10:00:00.000Z")
            "2024-05-01T10:05:00.000Z" {[ "q1" := JStr "b" ]} _).
  - reachable_by_run.
  - vm_compute. apply list_elem_of_here.
Defined.

(** C9: regrading never changes totalMCQs, and there is a reachable store
    with a submission whose score is greater than its totalMCQs: a student
    submits to a quiz with one open-ended question (totalMCQs = 0, score = 0)
    and the teacher marks the answer correct (score = 1); GET
    /teacher/results then reports correctCount 1 against totalQuestions 0. *)
Theorem score_can_exceed_totalMCQs :
  (∀ questionText newGrade sub,
     sub_totalMCQs (regrade questionText newGrade sub) = sub_totalMCQs sub) ∧
  ∃ st sub rows row,
    reachable st ∧
    sub ∈ submissions st ∧
    sub_totalMCQs sub < sub_score sub ∧
    teacher_results "t1" st = Json rows ∧
    row ∈ rows ∧
    studentName row = sub_studentName sub ∧
    totalQuestions row < correctCount row.
Proof.
  split; [apply regrade_totalMCQs|].
  pose (essay := ({[ "id" := JStr "q2"; "text" := JStr "Essay";
                     "type" := JStr "open-ended" ]} : jsobj)).
  pose (rs := [Signin "t1" "Ada" "Lovelace";
               Signin "s1" "Bob" "Smith";
               Submit "2024-05-01T10:00:00.000Z" "s1" (Some {[ "q2" := JStr "An essay." ]});
               MarkOpenQuestion "t1" "Bob Smith" "Essay" (Some (JBool true))]).
  exists (run (initial [mkTeacher "Ada" "Lovelace"] [essay]) rs).
  exists (mkSubmission "s1" "Bob Smith" {[ "q2" := JStr "An essay." ]}
            (Some {[ "q2" := JStr "An essay." ]}) (Some {[ "Essay" := JBool true ]})
            1 0 "2024-05-01T10:00:00.000Z").
  exists [mkResultRow "Bob Smith" 1 0], (mkResultRow "Bob Smith" 1 0).
  split_and!.
  - reachable_by_run.
  - vm_compute. apply list_elem_of_here.
  - simpl. lia.
  - vm_compute. reflexivity.
  - apply list_elem_of_here.
  - reflexivity.
  - simpl. lia.
Qed.

Lemma mark_finds_first_exact_name_witness :
  let essay : jsobj := {[ "id" := JStr "q2"; "text" := JStr "Essay";
                          "type" := JStr "open-ended" ]} in
  let first := mkSubmission "s1" "Mary Ann Lee" ∅ (Some {[ "q2" := JStr "No answer" ]})
                 (Some ∅) 0 0 "2024-05-01T10:00:00.000Z" in
  let second := mkSubmission "s2" "Mary Ann Lee" ∅ (Some {[ "q2" := JStr "No answer" ]})
                  (Some ∅) 0 0 "2024-05-01T10:01:00.000Z" in
  let st := run (initial [mkTeacher "Ada" "Lovelace"] [essay])
              [Signin "t1" "Ada" "Lovelace";
               Signin "s1" "Mary Ann" "Lee";
               Signin "s2" "Mary" "Ann Lee";
               Submit "2024-05-01T10:00:00.000Z" "s1" (Some ∅);
               Submit "2024-05-01T10:01:00.000Z" "s2" (Some ∅)] in
  submissions st = [first; second] ∧
  (∃ (i : nat) sub newGrade,
     Some (JBool true) = Some newGrade ∧
     submissions st !! i = Some sub ∧
     sub_studentName sub = "Mary Ann Lee" ∧
     (∀ (j : nat) sub', (j < i)%nat → submissions st !! j = Some sub' →
                        sub_studentName sub' ≠ "Mary Ann Lee") ∧
     submissions (mark_open_question "t1" "Mary Ann Lee" "Essay" (Some (JBool true)) st).1
       = <[i := regrade "Essay" newGrade sub]> (submissions st)) ∧
  submissions (run st [MarkOpenQuestion "t1" "Mary Ann Lee" "Essay" (Some (JBool true));
                       MarkOpenQuestion "t1" "Mary Ann Lee" "Essay" (Some (JBool false))])
    !! 1%nat = Some second ∧
  mark_open_question "t1" "mary ann lee" "Essay" (Some (JBool true)) st
    = (st, Fail 404 "No submission found for this student.").
Proof.
  intros essay first second st.
  assert (submissions st = [first; second]) as Hsubs by (vm_compute; reflexivity).
  destruct mark_finds_first_exact_name as (Hfirst & Hlater & Hnone).
  split_and!.
  - exact Hsubs.
  - apply (Hfirst "t1" "Mary Ann Lee" "Essay" (Some (JBool true)) st _
             (mkMarkBody 1 None (JBool true) 1)).
    vm_compute. reflexivity.
  - apply (Hlater st 0%nat 1%nat first second); [lia| | |reflexivity];
      rewrite Hsubs; reflexivity.
  - apply Hnone; [discriminate..| |].
    + eexists. vm_compute. reflexivity.
    + rewrite Hsubs. repeat constructor; discriminate.
Defined.

(** C4, the claim as written fails on answers that are there but empty, on
    answers that are not strings, and on question ids that every object
    inherits.
    (1) A multiple-choice question whose correctAnswer is the empty string,
    answered with the empty string: the answer exists and equals
    correctAnswer, yet the score is not incremented.
    (2) An open-ended question answered with the empty string: the submitted
    answer exists, yet "No answer" is stored in its place.
    (3) A multiple-choice question answered with the number 2: the loop does
    not reach its end, [toLowerCase] throws, and POST /submit answers 500 and
    stores nothing.
    (4) A multiple-choice question with the id "constructor" and no answer
    submitted for it: the handler reads the inherited function as the answer
    and throws as in (3); and for an open-ended question with that id and no
    answer, neither an answer nor "No answer" reaches the store. *)
Lemma empty_answer_counterexample :
  let blank : jsobj := {[ "id" := JStr "q1"; "type" := JStr "multiple-choice";
                          "correctAnswer" := JStr "" ]} in
  let mcq : jsobj := {[ "id" := JStr "q1"; "type" := JStr "multiple-choice";
                        "correctAnswer" := JStr "a" ]} in
  let essay : jsobj := {[ "id" := JStr "q2"; "text" := JStr "Essay";
                          "type" := JStr "open-ended" ]} in
  let answers : jsobj := {[ "q1" := JStr ""; "q2" := JStr "" ]} in
  (∃ g, grade_submission [blank; essay] answers = Some g ∧
        claimed_correct answers blank ∧
        g_totalMCQs g = 1 ∧
        g_score g = 0 ∧
        answers !! "q2" = Some (JStr "") ∧
        g_openEndedAnswers g !! "q2" = Some (JStr "No answer") ∧
        g_openEndedAnswers g !! "q2" ≠ Some (claimed_stored answers "q2")) ∧
  grade_submission [mcq] {[ "q1" := JNum 2 ]} = None ∧
  let st := mkStore [] [mkUser "s1" "Bob" "Smith" Student] [] [mcq] [] in
  submit "2024-05-01T10:00:00.000Z" "s1" (Some {[ "q1" := JNum 2 ]}) st
    = (st, Fail 500 "Internal Server Error") ∧
  let inherited : jsobj := {[ "id" := JStr "constructor"; "type" := JStr "multiple-choice";
                              "correctAnswer" := JStr "a" ]} in
  let inherited_essay : jsobj := {[ "id" := JStr "constructor"; "text" := JStr "Essay";
                                    "type" := JStr "open-ended" ]} in
  answer_for ∅ inherited = None ∧
  grade_submission [inherited] ∅ = None ∧
  (∃ st1 body sub,
     submit "2024-05-01T10:00:00.000Z" "s1" (Some ∅)
       (mkStore [] [mkUser "s1" "Bob" "Smith" Student] [] [inherited_essay] [])
       = (st1, Json body) ∧
     submissions st1 = [sub] ∧
     sub_openEndedAnswers sub = Some ∅).
Proof.
  vm_compute. split_and!; try reflexivity.
  - eexists. split_and!; try reflexivity. discriminate.
  - do 3 eexists. split_and!; reflexivity.
Qed.

Lemma grading_rule_witness :
  let mcq : jsobj := {[ "id" := JStr "q1"; "type" := JStr "multiple-choice";
                        "correctAnswer" := JStr "a" ]} in
  let essay : jsobj := {[ "id" := JStr "q2"; "text" := JStr "Essay";
                          "type" := JStr "open-ended" ]} in
  let answers : jsobj := {[ "q1" := JStr "A" ]} in
  ∃ g, grade_submission [mcq; essay] answers = Some g ∧
       g_totalMCQs g = 1 ∧
       g_score g = 1 ∧
       g_openEndedAnswers g !! "q2" = Some (JStr "No answer") ∧
       g_openEndedAnswers g !! "q1" = None.
Proof.
  intros mcq essay answers.
  assert (Forall plain_id [mcq; essay]) as Hplain.
  { repeat constructor; unfold plain_id; vm_compute;
      intros H; repeat (inversion_clear H as [|? ? ? H']; rename H' into H); inversion H. }
  assert (Forall (well_typed answers) [mcq; essay]) as Htyped.
  { constructor; [|constructor; [|constructor]].
    - intros _ _. split; eexists; vm_compute; reflexivity.
    - intros Hmcq. vm_compute in Hmcq. discriminate. }
  destruct (grading_rule [mcq; essay] answers Hplain Htyped)
    as [_ (g & Hg & _ & Htotal & Hscore & Hopen)].
  exists g. split_and!.
  - exact Hg.
  - rewrite Htotal. vm_compute. reflexivity.
  - rewrite Hscore. vm_compute. reflexivity.
  - rewrite Hopen. vm_compute. reflexivity.
  - rewrite Hopen. vm_compute. reflexivity.
Defined.

Lemma failed_requests_write_nothing_witness :
  let st := mkStore [] [mkUser "s1" "Bob" "Smith" Student] [] [] [] in
  (session_start 10 "s1" (Some 20) st).1 = st ∧
  (mark_open_question "s1" "Bob Smith" "Essay" (Some (JBool true)) st).1 = st ∧
  (submit "2024-05-01T10:00:00.000Z" "nobody" (Some ∅) st).1 = st.
Proof.
  intros st.
  destruct failed_requests_write_nothing as (_ & Hstart & Hsubmit & Hmark & _).
  split_and!.
  - apply (Hstart 10 "s1" (Some 20) st _ 403 "Only teacher can start quiz"). reflexivity.
  - apply (Hmark "s1" "Bob Smith" "Essay" (Some (JBool true)) st _
             403 "Invalid teacher token."). reflexivity.
  - apply (Hsubmit "2024-05-01T10:00:00.000Z" "nobody" (Some ∅) st _
             403 "Invalid student token."). reflexivity.
Defined.

Lemma submission_data_is_never_rewritten_witness :
  let essay : jsobj := {[ "id" := JStr "q2"; "text" := JStr "Essay";
                          "type" := JStr "open-ended" ]} in
  let sub := mkSubmission "s1" "Bob Smith" {[ "q2" := JStr "An essay." ]}
               (Some {[ "q2" := JStr "An essay." ]}) (Some ∅) 0 0
               "2024-05-01T10:00:00.000Z" in
  let st := mkStore [] [mkUser "t1" "Ada" "Lovelace" Teacher] [] [essay] [sub] in
  ∃ sub', submissions (run st [MarkOpenQuestion "t1" "Bob Smith" "Essay" (Some (JBool true))])
            !! 0%nat = Some sub' ∧
          same_submission_data sub sub'.
Proof.
  intros essay sub st.
  apply (submission_data_is_never_rewritten st _ 0%nat sub). reflexivity.
Defined.

Lemma one_record_per_person_witness :
  let st := run (initial [] []) [Signin "s1" "Bob" "Smith"; Signin "s2" "BOB" "smith"] in
  NoDup (u_id <$> users st) ∧ length (users st) = 1%nat.
Proof.
  intros st. split.
  - apply (one_record_per_person st). reachable_by_run.
  - reflexivity.
Defined.

Lemma tokens_have_one_role_witness :
  let st := run (initial [mkTeacher "Ada" "Lovelace"] [])
              [Signin "t1" "Ada" "Lovelace"; Signin "s1" "Bob" "Smith"] in
  teacher_results "s1" st = Fail 403 "Invalid teacher token." ∧
  results "t1" st = Fail 403 "Invalid student token.".
Proof.
  intros st.
  assert (reachable st) as Hst by reachable_by_run.
  split.
  - refine (proj1 (proj2 (proj1 (tokens_have_one_role st (mkUser "s1" "Bob" "Smith" Student)
                                   Hst _) eq_refl))).
    vm_compute. apply list_elem_of_further, list_elem_of_here.
  - refine (proj2 (proj2 (tokens_have_one_role st (mkUser "t1" "Ada" "Lovelace" Teacher)
                            Hst _) eq_refl)).
    vm_compute. apply list_elem_of_here.
Defined.


Lemma remaining_time_is_within_the_session_witness :
  ∃ s, last [mkSession 1 2; mkSession 5 9] = Some s ∧
       ses_startTime s ≤ 7 ≤ ses_endTime s ∧
       2 = ses_endTime s - 7 ∧
       0 ≤ 2 ≤ ses_endTime s - ses_startTime s.
Proof.
  apply (remaining_time_is_within_the_session 7
           (mkStore [] [] [mkSession 1 2; mkSession 5 9] [] []) (mkQuestionsBody 2 [])).
  reflexivity.
Defined.

Lemma gate_as_time_passes_witness :
  gate 20 [mkSession 5 9] = Ended ∧
  (∀ r r', gate 6 [mkSession 5 9] = Json r → gate 8 [mkSession 5 9] = Json r' →
           r' = r - (8 - 6)).
Proof.
  split.
  - apply (proj1 (gate_as_time_passes 10 20 [mkSession 5 9] ltac:(lia))). reflexivity.
  - apply (proj2 (gate_as_time_passes 6 8 [mkSession 5 9] ltac:(lia))).
Defined.

Lemma ServerJs_sessions_last_one_hour_witness :
  let st := ServerJs.run (initial [mkTeacher "Ada" "Lovelace"] [])
              [ServerJs.Signin "t1" "Ada" "Lovelace"; ServerJs.SessionStart 1000 "t1"] in
  sessions st = [mkSession 1000 3601000] ∧ 0 ≤ 3599000 ≤ 3600000.
Proof.
  intros st. split; [reflexivity|].
  apply (proj2 (proj2 (ServerJs_sessions_last_one_hour [mkTeacher "Ada" "Lovelace"] []
                         [ServerJs.Signin "t1" "Ada" "Lovelace";
                          ServerJs.SessionStart 1000 "t1"] 2000))
           (mkQuestionsBody 3599000 [])).
  reflexivity.
Defined.

Lemma auto_grade_is_bounded_witness :
  let mcq : jsobj := {[ "id" := JStr "q1"; "type" := JStr "multiple-choice";
                        "correctAnswer" := JStr "a" ]} in
  let st := mkStore [] [mkUser "s1" "Bob" "Smith" Student] [] [mcq] [] in
  0 ≤ 1 ≤ 1 ∧ 1 = Z.of_nat (length (filter is_mcq (questions st))) ∧
  1 ≤ Z.of_nat (length (questions st)).
Proof.
  intros mcq st.
  apply (auto_grade_is_bounded "2024-05-01T10:00:00.000Z" "s1" (Some {[ "q1" := JStr "A" ]})
           st (submit "2024-05-01T10:00:00.000Z" "s1" (Some {[ "q1" := JStr "A" ]}) st).1
           (mkSubmitBody 1 1)).
  vm_compute. reflexivity.
Defined.



Lemma variants_agree_on_submit_witness :
  let mcq : jsobj := {[ "id" := JStr "q1"; "type" := JStr "multiple-choice";
                        "correctAnswer" := JStr "a" ]} in
  let st := mkStore [] [mkUser "s1" "Bob" "Smith" Student] [] [mcq] [] in
  ∃ sub,
    submissions (submit "2024-05-01T10:00:00.000Z" "s1" (Some {[ "q1" := JStr "A" ]}) st).1
      = submissions st ++ [sub] ∧
    (ServerJs.submit "2024-05-01T10:00:00.000Z" "s1" (Some {[ "q1" := JStr "A" ]}) st).1
      = set_submissions st
          (submissions st ++
             [mkSubmission (sub_token sub) (sub_studentName sub) (sub_answers sub)
                None None (sub_score sub) (sub_totalMCQs sub) (sub_submittedAt sub)]).
Proof.
  intros mcq st.
  apply (proj2 (variants_agree_on_submit "2024-05-01T10:00:00.000Z" "s1"
                  (Some {[ "q1" := JStr "A" ]}) st) _ (mkSubmitBody 1 1)).
  vm_compute. reflexivity.
Defined.

Lemma submission_check_foretells_submit_witness :
  let st := mkStore [] [mkUser "s1" "Bob" "Smith" Student] [] [] [] in
  let st1 := (ServerJs.submit "2024-05-01T10:00:00.000Z" "s1" (Some ∅) st).1 in
  ServerJs.submission_check "s1" st = Json false ∧
  ServerJs.submission_check "s1" (ServerJs.run st1 [ServerJs.Signin "s2" "Eve" "Moss"])
    = Json true ∧
  ServerJs.submit "2024-05-01T10:05:00.000Z" "s1" (Some ∅) st1 = (st1, DuplicateSubmission).
Proof.
  intros st st1.
  destruct (submission_check_foretells_submit "s1" st ltac:(discriminate)) as (_ & _ & Hafter).
  destruct (Hafter "2024-05-01T10:00:00.000Z" ∅ st1 (mkSubmitBody 0 0)
              [ServerJs.Signin "s2" "Eve" "Moss"] eq_refl) as [Hbefore Hlater].
  split_and!; [exact Hbefore|exact Hlater|].
  apply (proj1 (submission_check_foretells_submit "s1" st1 ltac:(discriminate)));
    [reflexivity|by eexists].
Defined.

Lemma mark_changes_one_row_witness :
  let essay : jsobj := {[ "id" := JStr "q2"; "text" := JStr "Essay";
                          "type" := JStr "open-ended" ]} in
  let bob := mkSubmission "s1" "Bob Smith" ∅ (Some ∅) (Some ∅) 2 3 "2024-05-01T10:00:00.000Z" in
  let eve := mkSubmission "s2" "Eve Moss" ∅ (Some ∅) (Some ∅) 1 3 "2024-05-01T10:01:00.000Z" in
  let st := mkStore [] [mkUser "t1" "Ada" "Lovelace" Teacher] [] [essay] [bob; eve] in
  let st1 := (mark_open_question "t1" "Eve Moss" "Essay" (Some (JBool true)) st).1 in
  ∃ (i : nat) sub rows,
    submissions st !! i = Some sub ∧
    sub_studentName sub = "Eve Moss" ∧
    length (submissions st1) = length (submissions st) ∧
    (∀ j : nat, j ≠ i → submissions st1 !! j = submissions st !! j) ∧
    teacher_results "t1" st = Json rows ∧
    teacher_results "t1" st1
      = Json (<[i := mkResultRow "Eve Moss" 2 (sub_totalMCQs sub)]> rows).
Proof.
  intros essay bob eve st st1.
  apply (proj2 (proj2 (proj2 (proj2
           (mark_changes_one_row "t1" "Eve Moss" "Essay" (Some (JBool true)) st st1
              (mkMarkBody 2 None (JBool true) 1) eq_refl))))).
Defined.

Lemma only_open_questions_can_be_marked_witness :
  let mcq : jsobj := {[ "id" := JStr "q1"; "text" := JStr "Pick one";
                        "type" := JStr "multiple-choice"; "correctAnswer" := JStr "a" ]} in
  let st := mkStore [] [mkUser "t1" "Ada" "Lovelace" Teacher] [] [mcq]
              [mkSubmission "s1" "Bob Smith" ∅ (Some ∅) (Some ∅) 0 1
                 "2024-05-01T10:00:00.000Z"] in
  mark_open_question "t1" "Bob Smith" "Pick one" (Some (JBool true)) st
    = (st, Fail 404 "Question not found.").
Proof.
  intros mcq st.
  apply only_open_questions_can_be_marked; [discriminate..| | |].
  - by eexists.
  - by apply Exists_cons_hd.
  - constructor; [|constructor]. intros _ Hopen. vm_compute in Hopen. discriminate.
Defined.

Lemma correct_correct_incorrect_witness :
  let essay : jsobj := {[ "id" := JStr "q2"; "text" := JStr "Essay";
                          "type" := JStr "open-ended" ]} in
  let sub := mkSubmission "s1" "Bob Smith" ∅ (Some ∅) (Some ∅) 2 3 "2024-05-01T10:00:00.000Z" in
  let st := mkStore [] [mkUser "t1" "Ada" "Lovelace" Teacher] [] [essay] [sub] in
  let mark b st := mark_open_question "t1" "Bob Smith" "Essay" (Some (JBool b)) st in
  ∃ st1 st2 st3 r1 r2 r3 sub3,
    mark true st = (st1, Json r1) ∧ mark true st1 = (st2, Json r2) ∧
    mark false st2 = (st3, Json r3) ∧
    scoreChange r1 = 1 ∧ scoreChange r2 = 0 ∧ scoreChange r3 = -1 ∧
    updatedScore r1 = sub_score sub + 1 ∧ updatedScore r2 = sub_score sub + 1 ∧
    updatedScore r3 = sub_score sub ∧
    submissions st3 !! 0%nat = Some sub3 ∧
    sub_score sub3 = sub_score sub ∧
    sub_openAnswerGrades sub3 ≫= (λ m, m !! "Essay") = Some (JBool false).
Proof.
  intros essay sub st.
  apply (correct_correct_incorrect "t1" "Bob Smith" "Essay" st 0%nat sub);
    [discriminate..| | | | |].
  - by eexists.
  - reflexivity.
  - apply Exists_cons_hd. split; reflexivity.
  - reflexivity.
  - simpl. lia.
Defined.


Lemma extended_view_misses_serverjs_answers_witness :
  let essay : jsobj := {[ "id" := JStr "q2"; "text" := JStr "Essay";
                          "type" := JStr "open-ended" ]} in
  let st := mkStore [] [mkUser "s1" "Bob" "Smith" Student; mkUser "t1" "Ada" "Lovelace" Teacher]
              [] [essay] [] in
  let st1 := (ServerJs.submit "2024-05-01T10:00:00.000Z" "s1"
                (Some {[ "q2" := JStr "An essay." ]}) st).1 in
  ∃ rows row,
    teacher_open_questions "t1" st1 = Json rows ∧
    last rows = Some row ∧
    ServerJs.or_answers row !! prop_key (essay !! "text") = Some (JStr "No answer provided").
Proof.
  intros essay st st1.
  apply (extended_view_misses_serverjs_answers "2024-05-01T10:00:00.000Z" "s1" "t1"
           (Some {[ "q2" := JStr "An essay." ]}) st st1 (mkSubmitBody 0 0) essay).
  - vm_compute. reflexivity.
  - discriminate.
  - eexists. vm_compute. reflexivity.
  - apply list_elem_of_here.
  - reflexivity.
  - discriminate.
Defined.

Lemma role_is_fixed_at_first_signin_witness :
  let st := initial [mkTeacher "Ada" "Lovelace"] [] in
  ∃ r,
    signin "t1" "ada" "LOVELACE" st
      = (set_users st [mkUser "t1" "ada" "LOVELACE" r], Json (mkSigninBody "t1" r)) ∧
    r = Teacher ∧
    signin "x" "Ada" "Lovelace"
           (set_teachers (run (set_users st [mkUser "t1" "ada" "LOVELACE" r]) []) [])
      = (set_teachers (run (set_users st [mkUser "t1" "ada" "LOVELACE" r]) []) [],
         Json (mkSigninBody "t1" r)).
Proof.
  intros st.
  destruct (role_is_fixed_at_first_signin "t1" "ada" "LOVELACE" st)
    as (r & Hfirst & Hrole & Hlater); [discriminate..|constructor|].
  exists r. split_and!.
  - exact Hfirst.
  - apply Hrole. apply Exists_cons_hd. split; reflexivity.
  - apply (Hlater [] [] "x" "Ada" "Lovelace"); reflexivity.
Defined.

Lemma submit_ignores_letter_case_witness :
  let mcq : jsobj := {[ "id" := JStr "q1"; "type" := JStr "multiple-choice";
                        "correctAnswer" := JStr "Paris" ]} in
  let st := mkStore [] [mkUser "s1" "Bob" "Smith" Student] [] [mcq] [] in
  (submit "2024-05-01T10:00:00.000Z" "s1" (Some (<[ "q1" := JStr "PARIS" ]> ∅)) st).2
    = (submit "2024-05-01T10:00:00.000Z" "s1" (Some (<[ "q1" := JStr "paris" ]> ∅)) st).2.
Proof.
  intros mcq st. apply submit_ignores_letter_case. reflexivity.
Defined.

Lemma ServerJs_submit_once_witness :
  let rs := [ServerJs.Signin "s1" "Bob" "Smith";
             ServerJs.Submit "2024-05-01T10:00:00.000Z" "s1" (Some ∅)] in
  let st := ServerJs.run (initial [] []) rs in
  ServerJs.submit "2024-05-01T10:05:00.000Z" "s1" (Some {[ "q1" := JStr "b" ]}) st
    = (st, Fail 400 "You have already submitted your answers.").
Proof.
  intros rs st.
  apply (proj1 (ServerJs_submit_once [] [] rs)
           (mkSubmission "s1" "Bob Smith" ∅ None None 0 0 "2024-05-01T10:00:00.000Z")).
  vm_compute. apply list_elem_of_here.
Defined.

Lemma floor_is_out_of_reach_for_boolean_verdicts_witness :
  let essay : jsobj := {[ "id" := JStr "q2"; "text" := JStr "Essay";
                          "type" := JStr "open-ended" ]} in
  let rs := [Signin "t1" "Ada" "Lovelace";
             Signin "s1" "Bob" "Smith";
             Submit "2024-05-01T10:00:00.000Z" "s1" (Some ∅);
             MarkOpenQuestion "t1" "Bob Smith" "Essay" (Some (JBool true))] in
  let st := run (initial [mkTeacher "Ada" "Lovelace"] [essay]) rs in
  ∃ (i : nat) sub,
    list_find (λ sub, sub_studentName sub = "Bob Smith") (submissions st) = Some (i, sub) ∧
    0 = sub_score sub + -1.
Proof.
  intros essay rs st.
  apply (floor_is_out_of_reach_for_boolean_verdicts [mkTeacher "Ada" "Lovelace"] [essay] rs
           "t1" "Bob Smith" "Essay" false
           (mark_open_question "t1" "Bob Smith" "Essay" (Some (JBool false)) st).1
           (mkMarkBody 0 (Some (JBool true)) (JBool false) (-1))).
  - repeat constructor. by exists true.
    apply (bool_decide_unpack _). vm_compute. exact I.
  - apply (bool_decide_unpack _). vm_compute. exact I.
  - vm_compute. reflexivity.
Defined.

Lemma open_questions_view_without_open_questions_witness :
  let mcq : jsobj := {[ "id" := JStr "q1"; "type" := JStr "multiple-choice";
                        "correctAnswer" := JStr "a" ]} in
  let st := mkStore [] [mkUser "t1" "Ada" "Lovelace" Teacher] [] [mcq]
              [mkSubmission "s1" "Bob Smith" ∅ None None 0 1 "2024-05-01T10:00:00.000Z"] in
  teacher_open_questions "t1" st = Fail 404 "No open-ended questions found." ∧
  ServerJs.teacher_open_questions "t1" st = Json [ServerJs.mkOpenRow "Bob Smith" ∅].
Proof.
  intros mcq st.
  apply (open_questions_view_without_open_questions "t1" st).
  - discriminate.
  - by eexists.
  - constructor; [|constructor]. intros Hopen. vm_compute in Hopen. discriminate.
Defined.
